(** * Blogicum: the request handlers of [blog/views.py] and the forms of
    [blog/forms.py], embedded over an explicit data store.

    Tables are finite maps from primary key to row, a handler is a function
    in a small state-and-exception monad over the store, and the time read
    by [timezone.now()] is an argument of the handlers that read it. *)

From stdpp Require Import gmap strings list fin_maps sorting.
From Stdlib Require Import ZArith Lia.


(** ** Data model *)

(** Modelled from the spec: [blog/models.py] is not among the sources.  The
    four entities carry the attributes section 3 of the specification lists;
    foreign keys are the primary key of the row they point to. *)
Module User.
Record t := mk {
  username : string;
  email : string;
  first_name : string;
  last_name : string }.
End User.

Module Category.
Record t := mk {
  title : string;
  slug : string;
  is_published : bool }.
End Category.

Module Post.
Record t := mk {
  title : string;
  text : string;
  pub_date : Z;
  is_published : bool;
  image : option string;
  author : nat;
  category : nat }.
End Post.

Module Comments.
Record t := mk {
  text : string;
  author : nat;
  post : nat }.
End Comments.

#[global] Instance User_eq_dec : EqDecision User.t.
Proof. solve_decision. Defined.
#[global] Instance Category_eq_dec : EqDecision Category.t.
Proof. solve_decision. Defined.
#[global] Instance Post_eq_dec : EqDecision Post.t.
Proof. solve_decision. Defined.
#[global] Instance Comments_eq_dec : EqDecision Comments.t.
Proof. solve_decision. Defined.

(** The data store: one table per model, keyed by primary key. *)
Record Store := mkStore {
  users : gmap nat User.t;
  categories : gmap nat Category.t;
  posts : gmap nat Post.t;
  comments : gmap nat Comments.t }.

(** A model instance as the handlers hold it: the primary key, the row, and
    the values [annotate] attached under their names. *)
Record Obj (A : Type) := mkObj {
  pk : nat;
  row : A;
  annotations : list (string * nat) }.
Arguments mkObj {A} _ _ _.
Arguments pk {A} _.
Arguments row {A} _.
Arguments annotations {A} _.

Definition instance_of {A : Type} (kv : nat * A) : Obj A :=
  mkObj kv.1 kv.2 [].

(** [Model.objects]: every row of a table as an instance. *)
Definition objects {A : Type} (table : gmap nat A) : list (Obj A) :=
  instance_of <$> map_to_list table.

(** ** Requests and responses *)

Inductive Method := GET | POST | OtherMethod (name : string).

(** [request.user]: the anonymous user, or the row the session points to.
    Django compares model instances by primary key, and the anonymous user is
    equal to no row. *)
Inductive RequestUser :=
| AnonymousUser
| SessionUser (user_pk : nat) (user_row : User.t).

Record Request := mkRequest {
  method : Method;
  path : string;
  user : RequestUser;
  GET_data : gmap string string;
  POST_data : gmap string string;
  FILES : gmap string string }.

(** [post.author != request.user] with [post.author] given by its key. *)
Definition is_user (author_pk : nat) (u : RequestUser) : bool :=
  match u with
  | AnonymousUser => false
  | SessionUser k _ => bool_decide (author_pk = k)
  end.

(** The named routes the handlers redirect to. *)
Inductive Url :=
| url_post_detail (id : nat)
| url_profile (username : string)
| url_login (next : string).

(** A value cleaned by a form field. *)
Inductive value :=
| VStr (s : string)
| VTime (t : Z)
| VBool (b : bool)
| VRef (k : nat)
| VNone.

(** An instance under construction: a form fills it and a handler completes
    it before saving.  It is a dictionary of attributes, with the primary key
    once the row exists. *)
Record Instance := mkInstance {
  inst_pk : option nat;
  attrs : gmap string value }.

(** A model form: [Meta.model], the names of its fields, the submitted data
    ([None] where the handler passed [None]), the uploaded files and the
    instance it edits. *)
Record ModelForm := mkForm {
  form_model : string;
  form_fields : list string;
  form_data : option (gmap string string);
  form_files : option (gmap string string);
  form_instance : option Instance }.

(** A page of a paginator over [A]. *)
Record Paginator (A : Type) := mkPaginator {
  object_list : list A;
  per_page : nat }.
Arguments mkPaginator {A} _ _.
Arguments object_list {A} _.
Arguments per_page {A} _.

Record Page (A : Type) := mkPage {
  page_items : list A;
  number : nat;
  paginator : Paginator A }.
Arguments mkPage {A} _ _ _.
Arguments page_items {A} _.
Arguments number {A} _.
Arguments paginator {A} _.

(** The values a template context holds. *)
Inductive CtxValue :=
| CPost (p : Obj Post.t)
| CForm (f : ModelForm)
| CComments (l : list (Obj Comments.t * User.t))
| CComment (c : Obj Comments.t)
| CCategory (c : Obj Category.t)
| CUser (u : Obj User.t)
| CPage (p : Page (Obj Post.t)).

Inductive Response :=
| Render (template : string) (context : list (string * CtxValue))
| Redirect (to : Url)
| NotFound (message : string)
| Forbidden
| ServerError (exception : string).

(** ** Handlers as computations over the store *)

Inductive Exc :=
| Http404 (message : string)
| DoesNotExist
| MultipleObjectsReturned
| ValueError
| IntegrityError.

Definition M (A : Type) : Type := Store → (Exc + A) * Store.

#[global] Instance M_ret : MRet M := λ A a s, (inr a, s).
#[global] Instance M_bind : MBind M := λ A B f m s,
  match m s with
  | (inl e, s') => (inl e, s')
  | (inr a, s') => f a s'
  end.

Definition raise {A : Type} (e : Exc) : M A := λ s, (inl e, s).
Definition get_store : M Store := λ s, (inr s, s).
Definition put_store (s' : Store) : M unit := λ _, (inr tt, s').

(** What the framework makes of a handler: an exception that escapes becomes
    the not-found page or the server-error page. *)
Definition respond (m : M Response) (s : Store) : Response * Store :=
  match m s with
  | (inr r, s') => (r, s')
  | (inl (Http404 msg), s') => (NotFound msg, s')
  | (inl DoesNotExist, s') => (ServerError "DoesNotExist", s')
  | (inl MultipleObjectsReturned, s') => (ServerError "MultipleObjectsReturned", s')
  | (inl ValueError, s') => (ServerError "ValueError", s')
  | (inl IntegrityError, s') => (ServerError "IntegrityError", s')
  end.

(** [get_object_or_404(Model, id=id)]. *)
Definition get_object_or_404 {A : Type} (table : Store → gmap nat A)
    (id : nat) : M (Obj A) :=
  s ← get_store;
  match table s !! id with
  | Some r => mret (mkObj id r [])
  | None => raise (Http404 "No object matches the given query.")
  end.

(** [get_object_or_404(Model, **conditions)] on columns other than the key:
    [get] raises when several rows match. *)
Definition get_where_or_404 {A : Type} (table : Store → gmap nat A)
    (P : A → Prop) `{!∀ a, Decision (P a)} : M (Obj A) :=
  s ← get_store;
  match filter (λ o, P (row o)) (objects (table s)) with
  | [] => raise (Http404 "No object matches the given query.")
  | [o] => mret o
  | _ => raise MultipleObjectsReturned
  end.

(** Following a foreign key: [post.category]. *)
Definition related {A : Type} (table : Store → gmap nat A) (k : nat)
    : M (Obj A) :=
  s ← get_store;
  match table s !! k with
  | Some r => mret (mkObj k r [])
  | None => raise DoesNotExist
  end.

(** ** The object-relational layer *)

Definition set_posts (f : gmap nat Post.t → gmap nat Post.t) (s : Store) : Store :=
  mkStore (users s) (categories s) (f (posts s)) (comments s).

Definition set_comments (f : gmap nat Comments.t → gmap nat Comments.t)
    (s : Store) : Store :=
  mkStore (users s) (categories s) (posts s) (f (comments s)).

(** The key an auto-incremented table gives its next row. *)
Definition next_pk {A : Type} (table : gmap nat A) : nat :=
  S (max_list (map_to_list table).*1).

(** The join behind [category__is_published=True]. *)
Definition category__is_published (s : Store) (p : Post.t) : Prop :=
  Category.is_published <$> categories s !! Post.category p = Some true.

#[global] Instance category__is_published_dec s p :
  Decision (category__is_published s p).
Proof. unfold category__is_published. apply _. Defined.

(** [order_by('-pub_date')]; the order among equal dates is the sort's. *)
Definition newer_first (a b : Obj Post.t) : Prop :=
  (Post.pub_date (row b) ≤ Post.pub_date (row a))%Z.

#[global] Instance newer_first_dec a b : Decision (newer_first a b).
Proof. unfold newer_first. apply _. Defined.

Definition order_by_pub_date_desc (l : list (Obj Post.t)) : list (Obj Post.t) :=
  merge_sort newer_first l.

(** The reverse relation [post.comments]. *)
Definition comments_of (s : Store) (post_pk : nat) : list (Obj Comments.t) :=
  filter (λ c, Comments.post (row c) = post_pk) (objects (comments s)).

(** [annotate(name=Count('comments'))]. *)
Definition annotate_count (name : string) (s : Store)
    (l : list (Obj Post.t)) : list (Obj Post.t) :=
  (λ o, mkObj (pk o) (row o)
          (annotations o ++ [(name, length (comments_of s (pk o)))])) <$> l.

(** [select_related('author')]: each comment joined with its author's row. *)
Definition select_related_author (s : Store) (l : list (Obj Comments.t))
    : list (Obj Comments.t * User.t) :=
  omap (λ c, u ← users s !! Comments.author (row c); Some (c, u)) l.

(** Modelled from the spec: the cascade is declared in [blog/models.py], not
    among the sources.  Deleting a post deletes the comments it owns. *)
Definition delete_Post (k : nat) : M unit :=
  s ← get_store;
  put_store
    (set_comments (filter (λ kc, Comments.post kc.2 ≠ k))
       (set_posts (delete k) s)).

Definition delete_Comments (k : nat) : M unit :=
  s ← get_store;
  put_store (set_comments (delete k) s).

(** *** Saving instances *)

Definition setattr (name : string) (v : value) (i : Instance) : Instance :=
  mkInstance (inst_pk i) (<[name := v]> (attrs i)).

Definition as_str (v : value) : option string :=
  match v with VStr s => Some s | _ => None end.
Definition as_time (v : value) : option Z :=
  match v with VTime t => Some t | _ => None end.
Definition as_bool (v : value) : option bool :=
  match v with VBool b => Some b | _ => None end.
Definition as_ref (v : value) : option nat :=
  match v with VRef k => Some k | _ => None end.

Definition Post_to_attrs (p : Post.t) : gmap string value :=
  let a : gmap string value :=
    <["title" := VStr (Post.title p)]>
      (<["text" := VStr (Post.text p)]>
         (<["pub_date" := VTime (Post.pub_date p)]>
            (<["is_published" := VBool (Post.is_published p)]>
               (<["author" := VRef (Post.author p)]>
                  (<["category" := VRef (Post.category p)]> ∅))))) in
  match Post.image p with
  | Some f => <["image" := VStr f]> a
  | None => a
  end.

Definition Post_of_attrs (a : gmap string value) : option Post.t :=
  t ← a !! "title" ≫= as_str;
  x ← a !! "text" ≫= as_str;
  d ← a !! "pub_date" ≫= as_time;
  b ← a !! "is_published" ≫= as_bool;
  u ← a !! "author" ≫= as_ref;
  c ← a !! "category" ≫= as_ref;
  Some (Post.mk t x d b (a !! "image" ≫= as_str) u c).

Definition Comments_to_attrs (c : Comments.t) : gmap string value :=
  <["text" := VStr (Comments.text c)]>
    (<["author" := VRef (Comments.author c)]>
       (<["post" := VRef (Comments.post c)]> ∅)).

Definition Comments_of_attrs (a : gmap string value) : option Comments.t :=
  t ← a !! "text" ≫= as_str;
  u ← a !! "author" ≫= as_ref;
  p ← a !! "post" ≫= as_ref;
  Some (Comments.mk t u p).

(** [instance.save()]: insert under a new key, or update the row in place. *)
Definition save_Post (i : Instance) : M nat :=
  s ← get_store;
  match Post_of_attrs (attrs i) with
  | None => raise IntegrityError
  | Some r =>
      let k := default (next_pk (posts s)) (inst_pk i) in
      _ ← put_store (set_posts (<[k := r]>) s);
      mret k
  end.

Definition save_Comments (i : Instance) : M nat :=
  s ← get_store;
  match Comments_of_attrs (attrs i) with
  | None => raise IntegrityError
  | Some r =>
      let k := default (next_pk (comments s)) (inst_pk i) in
      _ ← put_store (set_comments (<[k := r]>) s);
      mret k
  end.

(** [instance.author = request.user]: only a saved user can be assigned. *)
Definition assign_user (name : string) (u : RequestUser) (i : Instance)
    : M Instance :=
  match u with
  | AnonymousUser => raise ValueError
  | SessionUser k _ => mret (setattr name (VRef k) i)
  end.

(** [request.user.username]; the anonymous user's is empty. *)
Definition username_of (u : RequestUser) : string :=
  match u with
  | AnonymousUser => ""
  | SessionUser _ r => User.username r
  end.

Definition to_instance_Post (o : Obj Post.t) : Instance :=
  mkInstance (Some (pk o)) (Post_to_attrs (row o)).

Definition to_instance_Comments (o : Obj Comments.t) : Instance :=
  mkInstance (Some (pk o)) (Comments_to_attrs (row o)).

(** ** Pagination *)

Definition PAGINATOR_PAGES : nat := 10.

Inductive PageError := PageNotAnInteger | EmptyPage.

Section Framework.

(** Python's [int] on a string: the page number of the query string. *)
Variable python_int : string → option Z.

(** The validation that a column's declaration in [blog/models.py] (not
    among the sources) gives its form field, by model and field name, on the
    submitted value: a parameter.  [VNone] leaves the attribute as it is (a
    file field without an upload). *)
Variable field_clean : Store → string → string → option string → option value.

(** The attributes of a new instance of a model, from the defaults its
    columns declare in [blog/models.py]: a parameter. *)
Variable model_defaults : string → gmap string value.

Definition count {A : Type} (p : Paginator A) : nat := length (object_list p).

(** [ceil(max(1, count) / per_page)]: an empty list still has a first page. *)
Definition num_pages {A : Type} (p : Paginator A) : nat :=
  (Nat.max 1 (count p) + per_page p - 1) / per_page p.

Definition validate_number {A : Type} (p : Paginator A)
    (number : option string) : PageError + nat :=
  match number ≫= python_int with
  | None => inl PageNotAnInteger
  | Some n =>
      if (n <? 1)%Z then inl EmptyPage
      else if (Z.of_nat (num_pages p) <? n)%Z then inl EmptyPage
      else inr (Z.to_nat n)
  end.

(** [object_list[bottom:top]]. *)
Definition page {A : Type} (p : Paginator A) (number : nat) : Page A :=
  let bottom := (number - 1) * per_page p in
  let top := bottom + per_page p in
  let top := if decide (count p ≤ top) then count p else top in
  mkPage (take (top - bottom) (drop bottom (object_list p))) number p.

Definition get_page {A : Type} (p : Paginator A) (number : option string)
    : Page A :=
  match validate_number p number with
  | inr n => page p n
  | inl PageNotAnInteger => page p 1
  | inl EmptyPage => page p (num_pages p)
  end.

(** ** Forms ([blog/forms.py]) *)

(** Modelled from the spec: the editable columns of the two models, in the
    order of section 3 of the specification. *)
Definition Post_fields : list string :=
  ["title"; "text"; "pub_date"; "is_published"; "image"; "author"; "category"].

Definition Comments_fields : list string := ["text"; "author"; "post"].

(** The fields a [Meta] with [fields] and [exclude] leaves of a model's. *)
Definition in_meta (fields exclude : option (list string)) (f : string) : bool :=
  from_option (λ fs, bool_decide (f ∈ fs)) true fields
  && from_option (λ ex, bool_decide (f ∉ ex)) true exclude.

Definition fields_for_model (model_fields : list string)
    (fields exclude : option (list string)) : list string :=
  filter (λ f, in_meta fields exclude f = true) model_fields.

Definition PostForm (data files : option (gmap string string))
    (instance : option Instance) : ModelForm :=
  mkForm "Post" (fields_for_model Post_fields None (Some ["author"]))
    data files instance.

Definition CommentForm (data : option (gmap string string))
    (instance : option Instance) : ModelForm :=
  mkForm "Comments" (fields_for_model Comments_fields (Some ["text"]) None)
    data None instance.

(** [request.POST or None]: an empty dictionary is false. *)
Definition or_None (d : gmap string string) : option (gmap string string) :=
  if decide (d = ∅) then None else Some d.

Definition is_bound (f : ModelForm) : bool :=
  bool_decide (is_Some (form_data f)) || bool_decide (is_Some (form_files f)).

Definition is_file_field (model name : string) : bool :=
  bool_decide (model = "Post" ∧ name = "image").

(** What the widget of a field reads: the entry under the field's own name. *)
Definition value_from_datadict (f : ModelForm) (name : string) : option string :=
  if is_file_field (form_model f) name
  then form_files f ≫= (λ d, d !! name)
  else form_data f ≫= (λ d, d !! name).

Fixpoint clean_fields (clean : string → option string → option value)
    (raw : string → option string) (names : list string)
    : option (gmap string value) :=
  match names with
  | [] => Some ∅
  | n :: rest =>
      v ← clean n (raw n);
      cd ← clean_fields clean raw rest;
      Some (<[n := v]> cd)
  end.

(** [form.cleaned_data] when [form.is_valid()], [None] when it is not. *)
Definition full_clean (s : Store) (f : ModelForm) : option (gmap string value) :=
  if is_bound f
  then clean_fields (field_clean s (form_model f)) (value_from_datadict f)
         (form_fields f)
  else None.

Definition is_valid (s : Store) (f : ModelForm) : bool :=
  bool_decide (is_Some (full_clean s f)).

Definition construct_instance (cd : gmap string value) (names : list string)
    (i : Instance) : Instance :=
  foldr (λ n acc,
           match cd !! n with
           | None | Some VNone => acc
           | Some v => setattr n v acc
           end) i names.

(** [form.save(commit=False)]. *)
Definition save_commit_false (f : ModelForm) (cd : gmap string value) : Instance :=
  construct_instance cd (form_fields f)
    (default (mkInstance None (model_defaults (form_model f))) (form_instance f)).

(** ** Handlers ([blog/views.py]) *)

(** The decorator: an anonymous request is sent to the login page. *)
Definition login_required (view : Request → M Response) (request : Request)
    : M Response :=
  match user request with
  | AnonymousUser => mret (Redirect (url_login (path request)))
  | SessionUser _ _ => view request
  end.

(** The three filters of the listings. *)
Definition index_filter (s : Store) (now : Z) (o : Obj Post.t) : Prop :=
  (Post.pub_date (row o) ≤ now)%Z
  ∧ Post.is_published (row o) = true
  ∧ category__is_published s (row o).

#[global] Instance index_filter_dec s now o : Decision (index_filter s now o).
Proof. unfold index_filter. apply _. Defined.

Definition index (now : Z) (request : Request) : M Response :=
  s ← get_store;
  let posts :=
    order_by_pub_date_desc
      (annotate_count "comment_count" s
         (filter (index_filter s now) (objects (posts s)))) in
  let paginator := mkPaginator posts PAGINATOR_PAGES in
  let page_number := GET_data request !! "page" in
  let page_obj := get_page paginator page_number in
  mret (Render "blog/index.html" [("page_obj", CPage page_obj)]).

Definition post_detail (now : Z) (request : Request) (id : nat) : M Response :=
  post ← get_object_or_404 posts id;
  if bool_decide (Post.pub_date (row post) > now)%Z
     && negb (is_user (Post.author (row post)) (user request))
  then raise (Http404 "Публикация ещё не доступна.")
  else
  if negb (Post.is_published (row post))
     && negb (is_user (Post.author (row post)) (user request))
  then raise (Http404 "Публикация недоступна.")
  else
  category ← related categories (Post.category (row post));
  if negb (Category.is_published (row category))
     && negb (is_user (Post.author (row post)) (user request))
  then raise (Http404 "Категория этой публикации скрыта.")
  else
  s ← get_store;
  let form := CommentForm None None in
  mret (Render "blog/detail.html"
          [("post", CPost post);
           ("form", CForm form);
           ("comments",
            CComments (select_related_author s (comments_of s (pk post))))]).

Definition category_filter (category_pk : nat) (now : Z) (o : Obj Post.t) : Prop :=
  Post.category (row o) = category_pk
  ∧ Post.is_published (row o) = true
  ∧ (Post.pub_date (row o) ≤ now)%Z.

#[global] Instance category_filter_dec k now o : Decision (category_filter k now o).
Proof. unfold category_filter. apply _. Defined.

Definition category_posts (now : Z) (request : Request) (category_slug : string)
    : M Response :=
  category ← get_where_or_404 categories
                (λ c, Category.slug c = category_slug
                      ∧ Category.is_published c = true);
  s ← get_store;
  let posts :=
    annotate_count "comment_count" s
      (order_by_pub_date_desc
         (filter (category_filter (pk category) now) (objects (posts s)))) in
  let paginator := mkPaginator posts PAGINATOR_PAGES in
  let page_number := GET_data request !! "page" in
  let page_obj := get_page paginator page_number in
  mret (Render "blog/category.html"
          [("category", CCategory category); ("page_obj", CPage page_obj)]).

Definition own_filter (user_pk : nat) (o : Obj Post.t) : Prop :=
  Post.author (row o) = user_pk.

#[global] Instance own_filter_dec k o : Decision (own_filter k o).
Proof. unfold own_filter. apply _. Defined.

Definition profile_filter (s : Store) (user_pk : nat) (now : Z)
    (o : Obj Post.t) : Prop :=
  Post.author (row o) = user_pk
  ∧ Post.is_published (row o) = true
  ∧ category__is_published s (row o)
  ∧ (Post.pub_date (row o) < now)%Z.

#[global] Instance profile_filter_dec s k now o : Decision (profile_filter s k now o).
Proof. unfold profile_filter. apply _. Defined.

Definition profile (now : Z) (request : Request) (username : string)
    : M Response :=
  owner ← get_where_or_404 users (λ u, User.username u = username);
  s ← get_store;
  let posts :=
    if is_user (pk owner) (user request)
    then
      order_by_pub_date_desc
        (annotate_count "comment_count" s
           (filter (own_filter (pk owner)) (objects (posts s))))
    else
      order_by_pub_date_desc
        (annotate_count "comments_count" s
           (filter (profile_filter s (pk owner) now) (objects (posts s)))) in
  let paginator := mkPaginator posts PAGINATOR_PAGES in
  let page_number := GET_data request !! "page" in
  let page_obj := get_page paginator page_number in
  mret (Render "blog/profile.html"
          [("profile", CUser owner); ("page_obj", CPage page_obj)]).

Definition create_post : Request → M Response :=
  login_required (λ request,
    s ← get_store;
    let form :=
      PostForm (or_None (POST_data request)) (or_None (FILES request)) None in
    match full_clean s form with
    | Some cleaned_data =>
        let fields := save_commit_false form cleaned_data in
        fields ← assign_user "author" (user request) fields;
        _ ← save_Post fields;
        mret (Redirect (url_profile (username_of (user request))))
    | None => mret (Render "blog/create.html" [("form", CForm form)])
    end).

Definition edit_post (request : Request) (id : nat) : M Response :=
  login_required (λ request,
    post ← get_object_or_404 posts id;
    if negb (is_user (Post.author (row post)) (user request))
    then mret (Redirect (url_post_detail id))
    else
    s ← get_store;
    let form :=
      PostForm (or_None (POST_data request)) (or_None (FILES request))
        (Some (to_instance_Post post)) in
    match full_clean s form with
    | Some cleaned_data =>
        _ ← save_Post (save_commit_false form cleaned_data);
        mret (Redirect (url_post_detail id))
    | None => mret (Render "blog/create.html" [("form", CForm form)])
    end) request.

Definition delete_post (request : Request) (id : nat) : M Response :=
  login_required (λ request,
    post ← get_object_or_404 posts id;
    if negb (is_user (Post.author (row post)) (user request))
    then mret (Redirect (url_post_detail id))
    else
    match method request with
    | GET =>
        let form := PostForm None None (Some (to_instance_Post post)) in
        mret (Render "blog/create.html" [("form", CForm form)])
    | POST =>
        _ ← delete_Post (pk post);
        mret (Redirect (url_profile (username_of (user request))))
    | OtherMethod _ => mret (Redirect (url_post_detail id))
    end) request.

Definition add_comment (request : Request) (id : nat) : M Response :=
  login_required (λ request,
    post ← get_object_or_404 posts id;
    s ← get_store;
    let form := CommentForm (or_None (POST_data request)) None in
    _ ← match full_clean s form with
        | Some cleaned_data =>
            let text := save_commit_false form cleaned_data in
            text ← assign_user "author" (user request) text;
            let text := setattr "post" (VRef (pk post)) text in
            _ ← save_Comments text;
            mret tt
        | None => mret tt
        end;
    mret (Redirect (url_post_detail id))) request.

Definition edit_comment (request : Request) (id comment_id : nat) : M Response :=
  login_required (λ request,
    comment ← get_object_or_404 comments comment_id;
    if negb (is_user (Comments.author (row comment)) (user request))
    then mret (Redirect (url_post_detail id))
    else
    s ← get_store;
    let form :=
      CommentForm (or_None (POST_data request))
        (Some (to_instance_Comments comment)) in
    match full_clean s form with
    | Some cleaned_data =>
        _ ← save_Comments (save_commit_false form cleaned_data);
        mret (Redirect (url_post_detail id))
    | None =>
        mret (Render "blog/comment.html"
                [("comment", CComment comment); ("form", CForm form)])
    end) request.

Definition delete_comment (request : Request) (id slug : nat) : M Response :=
  login_required (λ request,
    comment ← get_object_or_404 comments slug;
    if negb (is_user (Comments.author (row comment)) (user request))
    then mret (Redirect (url_post_detail slug))
    else
    match method request with
    | POST =>
        _ ← delete_Comments (pk comment);
        mret (Redirect (url_post_detail id))
    | GET => mret (Render "blog/comment.html" [("comment", CComment comment)])
    | OtherMethod _ => mret (Redirect (url_post_detail id))
    end) request.

End Framework.

(** ** The profile form and the class-based comment view *)

Definition set_users (f : gmap nat User.t → gmap nat User.t) (s : Store) : Store :=
  mkStore (f (users s)) (categories s) (posts s) (comments s).

Definition User_to_attrs (u : User.t) : gmap string value :=
  <["username" := VStr (User.username u)]>
    (<["email" := VStr (User.email u)]>
       (<["first_name" := VStr (User.first_name u)]>
          (<["last_name" := VStr (User.last_name u)]> ∅))).

Definition User_of_attrs (a : gmap string value) : option User.t :=
  n ← a !! "username" ≫= as_str;
  e ← a !! "email" ≫= as_str;
  f ← a !! "first_name" ≫= as_str;
  l ← a !! "last_name" ≫= as_str;
  Some (User.mk n e f l).

Definition to_instance_User (k : nat) (u : User.t) : Instance :=
  mkInstance (Some k) (User_to_attrs u).

Definition save_User (i : Instance) : M nat :=
  s ← get_store;
  match User_of_attrs (attrs i) with
  | None => raise IntegrityError
  | Some r =>
      let k := default (next_pk (users s)) (inst_pk i) in
      _ ← put_store (set_users (<[k := r]>) s);
      mret k
  end.

(** Modelled from the spec: the columns of a user that section 3 of the
    specification lists. *)
Definition User_fields : list string :=
  ["username"; "first_name"; "last_name"; "email"].

(** A [Meta.fields] tuple gives the form its fields in the tuple's order. *)
Definition fields_in_order (model_fields fields : list string) : list string :=
  filter (λ f, f ∈ model_fields) fields.

Definition UserForm (data : option (gmap string string))
    (instance : option Instance) : ModelForm :=
  mkForm "User"
    (fields_in_order User_fields ["username"; "email"; "first_name"; "last_name"])
    data None instance.

Section MoreHandlers.

Variable field_clean : Store → string → string → option string → option value.
Variable model_defaults : string → gmap string value.

(** The check of the unique columns of a model ([blog/models.py] and the
    framework's user model, not among the sources) on the instance a valid
    form has filled: a parameter. *)
Variable validate_unique : Store → string → Instance → bool.

(** [super().dispatch] of [CommentUpdateView]: the framework's update view
    behind the login mixin, a parameter. *)
Variable super_dispatch : Request → nat → nat → M Response.

(** [form.is_valid()] fills [request.user], the form's instance, so the
    redirect after [form.save()] reads the user name just saved.  The
    decorator lets no anonymous request reach the form. *)
Definition edit_profile : Request → M Response :=
  login_required (λ request,
    match user request with
    | AnonymousUser => raise ValueError
    | SessionUser k u =>
        s ← get_store;
        let form :=
          UserForm (or_None (POST_data request)) (Some (to_instance_User k u)) in
        match full_clean field_clean s form with
        | Some cleaned_data =>
            let instance := save_commit_false model_defaults form cleaned_data in
            if validate_unique s "User" instance
            then
              _ ← save_User instance;
              mret (Redirect
                      (url_profile
                         (default "" (attrs instance !! "username" ≫= as_str))))
            else mret (Render "blog/user.html" [("form", CForm form)])
        | None => mret (Render "blog/user.html" [("form", CForm form)])
        end
    end).

(** [CommentUpdateView.dispatch] with [get_object]. *)
Definition CommentUpdateView_dispatch (request : Request) (id slug : nat)
    : M Response :=
  comment ← get_object_or_404 comments slug;
  if negb (is_user (Comments.author (row comment)) (user request))
  then mret (Redirect (url_post_detail id))
  else super_dispatch request id slug.

(** [CommentUpdateView.get_success_url]. *)
Definition CommentUpdateView_get_success_url (id : nat) : Url :=
  url_post_detail id.

End MoreHandlers.

(** Every comment of the store belongs to a post of the store. *)
Definition comments_attached (s : Store) : Prop :=
  ∀ k c, comments s !! k = Some c → is_Some (posts s !! Comments.post c).

(** [context[name]]: the value a template finds under a name. *)
Definition context_get (name : string) (context : list (string * CtxValue))
    : option CtxValue :=
  (λ found : nat * (string * CtxValue), found.2.2)
    <$> list_find (λ kv, kv.1 = name) context.

(** The page a listing handed to its template. *)
Definition page_obj_of (r : Response) : option (Page (Obj Post.t)) :=
  match r with
  | Render _ context =>
      match context_get "page_obj" context with
      | Some (CPage page_obj) => Some page_obj
      | _ => None
      end
  | _ => None
  end.

(** The key and row of each instance of a list, without the annotations. *)
Definition rows_of (l : list (Obj Post.t)) : list (nat * Post.t) :=
  (λ o, (pk o, row o)) <$> l.

(** ** The visibility predicate of the specification *)

(** A post is publicly visible when it is published, its category is
    published and its publication time has come. *)
Definition is_visible (s : Store) (now : Z) (p : Post.t) : Prop :=
  Post.is_published p = true
  ∧ category__is_published s p
  ∧ (Post.pub_date p ≤ now)%Z.

#[global] Instance is_visible_dec s now p : Decision (is_visible s now p).
Proof. unfold is_visible. apply _. Defined.

(** ** A sample instance of the framework's parameters and a sample store *)

Module Sample.

Definition digit (c : Ascii.ascii) : option Z :=
  let n := Z.of_nat (Ascii.nat_of_ascii c) in
  if decide (48 ≤ n ≤ 57)%Z then Some (n - 48)%Z else None.

Fixpoint digits (acc : Z) (s : string) : option Z :=
  match s with
  | EmptyString => Some acc
  | String c rest => d ← digit c; digits (10 * acc + d)%Z rest
  end.

(** Decimal numerals only. *)
Definition python_int (s : string) : option Z :=
  match s with
  | EmptyString => None
  | _ => digits 0 s
  end.

Definition required_text (raw : option string) : option value :=
  match raw with
  | Some (String c rest) => Some (VStr (String c rest))
  | _ => None
  end.

Definition field_clean (s : Store) (model name : string) (raw : option string)
    : option value :=
  if decide (name = "title") then required_text raw
  else if decide (name = "text") then required_text raw
  else if decide (name = "pub_date") then VTime <$> raw ≫= python_int
  else if decide (name = "is_published") then Some (VBool (bool_decide (is_Some raw)))
  else if decide (name = "category") then
    k ← Z.to_nat <$> raw ≫= python_int;
    _ ← categories s !! k;
    Some (VRef k)
  else if decide (name = "image") then Some (from_option VStr VNone raw)
  else None.

Definition model_defaults (model : string) : gmap string value :=
  if decide (model = "Post") then {[ "is_published" := VBool true ]} else ∅.

Definition alice : User.t := User.mk "alice" "alice@example.org" "Alice" "A".
Definition bob : User.t := User.mk "bob" "bob@example.org" "Bob" "B".

Definition travel : Category.t := Category.mk "Travel" "travel" true.
Definition drafts : Category.t := Category.mk "Drafts" "drafts" false.

(** Alice's posts: one public, one hidden, one in a hidden category, one
    scheduled for later, and one published at the very time of the request
    (the clock reads 100). *)
Definition public_post : Post.t := Post.mk "Rome" "Three days" 50 true None 1 1.
Definition hidden_post : Post.t := Post.mk "Notes" "Unfinished" 40 false None 1 1.
Definition shelved_post : Post.t := Post.mk "Old" "Shelved" 30 true None 1 2.
Definition future_post : Post.t := Post.mk "Soon" "Wait" 200 true None 1 1.
Definition fresh_post : Post.t := Post.mk "Now" "Just out" 100 true None 1 1.

Definition store : Store :=
  mkStore
    (<[1 := alice]> (<[2 := bob]> ∅))
    (<[1 := travel]> (<[2 := drafts]> ∅))
    (<[1 := public_post]> (<[2 := hidden_post]> (<[3 := shelved_post]>
       (<[4 := future_post]> (<[5 := fresh_post]> ∅)))))
    (<[1 := Comments.mk "Nice" 2 1]> (<[2 := Comments.mk "Thanks" 1 1]> ∅)).

Definition now : Z := 100.

Definition request_of (m : Method) (u : RequestUser)
    (post_data : gmap string string) : Request :=
  mkRequest m "/" u ∅ post_data ∅.

Definition as_alice : RequestUser := SessionUser 1 alice.
Definition as_bob : RequestUser := SessionUser 2 bob.

End Sample.

(** ** Reasoning about handlers *)

(** Running a handler: unfold the monad down to the store it is given. *)
Ltac run :=
  unfold respond, login_required, get_object_or_404, get_where_or_404,
    related, assign_user, save_Post, save_Comments, delete_Post,
    delete_Comments, mbind, M_bind, mret, M_ret, get_store, put_store, raise;
  simpl.

Lemma category__is_published_lookup (s : Store) (p : Post.t) (c : Category.t) :
  categories s !! Post.category p = Some c →
  category__is_published s p ↔ Category.is_published c = true.
Proof.
  intros Hc. unfold category__is_published. rewrite Hc. simpl.
  split; [intros [= ->] | intros ->]; reflexivity.
Qed.

(** The two outcomes of the detail view for a post whose category row
    exists. *)
Lemma post_detail_cases (s : Store) (now : Z) (request : Request)
    (id : nat) (p : Post.t) (c : Category.t) :
  posts s !! id = Some p →
  categories s !! Post.category p = Some c →
  (is_visible s now p ∨ is_user (Post.author p) (user request) = true →
   respond (post_detail now request id) s =
     (Render "blog/detail.html"
        [("post", CPost (mkObj id p []));
         ("form", CForm (CommentForm None None));
         ("comments",
          CComments (select_related_author s (comments_of s id)))], s))
  ∧ (¬ is_visible s now p →
     is_user (Post.author p) (user request) = false →
     ∃ message, respond (post_detail now request id) s = (NotFound message, s)).
Proof.
  intros Hp Hc.
  assert (Hvis : is_visible s now p ↔
                 Post.is_published p = true ∧ Category.is_published c = true
                 ∧ (Post.pub_date p ≤ now)%Z).
  { unfold is_visible. rewrite (category__is_published_lookup s p c Hc). tauto. }
  unfold post_detail. run. rewrite Hp. simpl.
  destruct (is_user (Post.author p) (user request)) eqn:Hu; simpl.
  - rewrite !andb_false_r. rewrite Hc. simpl. rewrite andb_false_r.
    split; [reflexivity | discriminate].
  - rewrite !andb_true_r.
    case_bool_decide as Hd; simpl.
    { split; [| eauto].
      intros [Hv | ?]; [| discriminate]. apply Hvis in Hv. lia. }
    destruct (Post.is_published p) eqn:Hpub; simpl.
    2:{ split; [| eauto].
        intros [Hv | ?]; [| discriminate]. apply Hvis in Hv.
        destruct Hv as [? _]. discriminate. }
    rewrite Hc. simpl.
    destruct (Category.is_published c) eqn:Hcat; simpl.
    + split; [reflexivity |].
      intros Hn. exfalso. apply Hn, Hvis. split_and!; [done | done | lia].
    + split; [| eauto].
      intros [Hv | ?]; [| discriminate]. apply Hvis in Hv.
      destruct Hv as (_ & ? & _). discriminate.
Qed.

(** C1.  A post whose category row exists is rendered by the detail view to
    every viewer when it is published, its category is published and its
    publication time is not after now, and to its author in any case; when it
    fails that predicate and the viewer is not its author the answer is
    not-found, and the answer is never a permission-denied one. *)
Theorem post_detail_visible_or_author (s : Store) (now : Z) (request : Request)
    (id : nat) (p : Post.t) (c : Category.t) :
  posts s !! id = Some p →
  categories s !! Post.category p = Some c →
  (is_visible s now p ∨ is_user (Post.author p) (user request) = true →
   respond (post_detail now request id) s =
     (Render "blog/detail.html"
        [("post", CPost (mkObj id p []));
         ("form", CForm (CommentForm None None));
         ("comments",
          CComments (select_related_author s (comments_of s id)))], s))
  ∧ (¬ is_visible s now p →
     is_user (Post.author p) (user request) = false →
     ∃ message, respond (post_detail now request id) s = (NotFound message, s))
  ∧ (respond (post_detail now request id) s).1 ≠ Forbidden.
Proof.
  intros Hp Hc.
  destruct (post_detail_cases s now request id p c Hp Hc) as [Hshown Hhidden].
  split_and!; [exact Hshown | exact Hhidden |].
  destruct (decide (is_visible s now p)) as [Hv|Hv].
  { rewrite Hshown by (left; exact Hv). discriminate. }
  destruct (is_user (Post.author p) (user request)) eqn:Hu.
  { rewrite Hshown by (right; reflexivity). discriminate. }
  destruct (Hhidden Hv eq_refl) as [message ->]. discriminate.
Qed.

Lemma post_detail_visible_or_author_witness :
  posts Sample.store !! 2 = Some Sample.hidden_post
  ∧ categories Sample.store !! Post.category Sample.hidden_post
    = Some Sample.travel
  ∧ (∃ message,
       respond (post_detail Sample.now
                  (Sample.request_of GET Sample.as_bob ∅) 2) Sample.store
       = (NotFound message, Sample.store))
  ∧ respond (post_detail Sample.now
               (Sample.request_of GET Sample.as_alice ∅) 2) Sample.store
    = (Render "blog/detail.html"
         [("post", CPost (mkObj 2 Sample.hidden_post []));
          ("form", CForm (CommentForm None None));
          ("comments", CComments [])], Sample.store).
Proof.
  assert (H1 : posts Sample.store !! 2 = Some Sample.hidden_post)
    by reflexivity.
  assert (H2 : categories Sample.store !! Post.category Sample.hidden_post
               = Some Sample.travel) by reflexivity.
  split_and!; [exact H1 | exact H2 | |].
  - destruct (post_detail_visible_or_author Sample.store Sample.now
                (Sample.request_of GET Sample.as_bob ∅) 2 _ _ H1 H2)
      as (_ & Hhidden & _).
    apply Hhidden; [| reflexivity].
    unfold is_visible. simpl. intros [Hpub _]. discriminate.
  - destruct (post_detail_visible_or_author Sample.store Sample.now
                (Sample.request_of GET Sample.as_alice ∅) 2 _ _ H1 H2)
      as (Hshown & _ & _).
    rewrite Hshown; [reflexivity |]. right. reflexivity.
Defined.

(** ** Tables as lists of instances *)

Lemma elem_of_objects {A : Type} (table : gmap nat A) (o : Obj A) :
  o ∈ objects table ↔ table !! pk o = Some (row o) ∧ annotations o = [].
Proof.
  unfold objects. rewrite list_elem_of_fmap. split.
  - intros ([k r] & -> & Hin). apply elem_of_map_to_list in Hin. done.
  - intros [Hl Ha]. exists (pk o, row o). split.
    + destruct o; simpl in *; subst; reflexivity.
    + by apply elem_of_map_to_list.
Qed.

Lemma NoDup_objects {A : Type} (table : gmap nat A) : NoDup (objects table).
Proof.
  unfold objects. apply NoDup_fmap_2; [| apply NoDup_map_to_list].
  intros [k1 r1] [k2 r2] [=]. by subst.
Qed.

Lemma objects_insert_fresh {A : Type} (table : gmap nat A) (k : nat) (r : A) :
  table !! k = None →
  objects (<[k := r]> table) ≡ₚ mkObj k r [] :: objects table.
Proof.
  intros Hk. unfold objects. rewrite (map_to_list_insert table k r Hk).
  reflexivity.
Qed.

Lemma next_pk_fresh {A : Type} (table : gmap nat A) :
  table !! next_pk table = None.
Proof.
  destruct (table !! next_pk table) as [r|] eqn:Hr; [| reflexivity].
  exfalso. apply elem_of_map_to_list in Hr.
  assert (Hin : next_pk table ∈ (map_to_list table).*1).
  { apply list_elem_of_fmap. exists (next_pk table, r). done. }
  apply max_list_elem_of_le in Hin. unfold next_pk in Hin. lia.
Qed.

(** A list without duplicates whose members all equal [x] is [[x]]. *)
Lemma NoDup_singleton_all {A : Type} (l : list A) (x : A) :
  NoDup l → x ∈ l → (∀ y, y ∈ l → y = x) → l = [x].
Proof.
  intros Hnd Hin Hall. destruct l as [|a l]; [by apply elem_of_nil in Hin |].
  assert (a = x) as -> by (apply Hall; left).
  destruct l as [|b l]; [reflexivity |].
  assert (b = x) as -> by (apply Hall; right; left).
  apply NoDup_cons in Hnd as [Hnot _]. exfalso. apply Hnot. left.
Qed.

(** *** Ordering and annotating keep the rows *)

#[global] Instance newer_first_total : Total newer_first.
Proof. intros a b. unfold newer_first. lia. Qed.

#[global] Instance newer_first_trans : Transitive newer_first.
Proof. intros a b c. unfold newer_first. lia. Qed.

Lemma order_by_pub_date_desc_perm (l : list (Obj Post.t)) :
  order_by_pub_date_desc l ≡ₚ l.
Proof. apply merge_sort_Permutation. Qed.

Lemma order_by_pub_date_desc_sorted (l : list (Obj Post.t)) :
  StronglySorted newer_first (order_by_pub_date_desc l).
Proof. apply StronglySorted_merge_sort; apply _. Qed.

Lemma rows_of_annotate_count (name : string) (s : Store) (l : list (Obj Post.t)) :
  rows_of (annotate_count name s l) = rows_of l.
Proof.
  unfold rows_of, annotate_count. rewrite <- list_fmap_compose.
  apply list_fmap_ext. intros i o _. reflexivity.
Qed.

Lemma length_annotate_count (name : string) (s : Store) (l : list (Obj Post.t)) :
  length (annotate_count name s l) = length l.
Proof. unfold annotate_count. apply length_fmap. Qed.

Lemma rows_of_order_by (l : list (Obj Post.t)) :
  rows_of (order_by_pub_date_desc l) ≡ₚ rows_of l.
Proof. unfold rows_of. by rewrite order_by_pub_date_desc_perm. Qed.

Lemma elem_of_rows_of_filter (P : Obj Post.t → Prop) `{!∀ o, Decision (P o)}
    (table : gmap nat Post.t) (k : nat) (p : Post.t) :
  (k, p) ∈ rows_of (filter P (objects table))
  ↔ table !! k = Some p ∧ P (mkObj k p []).
Proof.
  unfold rows_of. rewrite list_elem_of_fmap. split.
  - intros (o & [= -> ->] & Hin). apply list_elem_of_filter in Hin as [HP Hin].
    apply elem_of_objects in Hin as [Hl Ha]. split; [done |].
    destruct o; simpl in *; subst; done.
  - intros [Hl HP]. exists (mkObj k p []). split; [done |].
    apply list_elem_of_filter. split; [done |]. by apply elem_of_objects.
Qed.

Lemma NoDup_rows_of_filter (P : Obj Post.t → Prop) `{!∀ o, Decision (P o)}
    (table : gmap nat Post.t) :
  NoDup (rows_of (filter P (objects table))).
Proof.
  unfold rows_of. apply NoDup_fmap_2_strong.
  - intros a b Ha Hb [= Hk Hr].
    apply list_elem_of_filter in Ha as [_ Ha].
    apply list_elem_of_filter in Hb as [_ Hb].
    apply elem_of_objects in Ha as [_ Ha], Hb as [_ Hb].
    destruct a, b; simpl in *; by subst.
  - apply NoDup_filter, NoDup_objects.
Qed.

(** *** Pages *)

Lemma paginator_page {A : Type} (p : Paginator A) (n : nat) :
  paginator (page p n) = p.
Proof. reflexivity. Qed.

Lemma paginator_get_page {A : Type} (python_int : string → option Z)
    (p : Paginator A) (number : option string) :
  paginator (get_page python_int p number) = p.
Proof.
  unfold get_page. destruct (validate_number python_int p number) as [[]|];
    apply paginator_page.
Qed.

Lemma length_page {A : Type} (p : Paginator A) (n : nat) :
  length (page_items (page p n)) ≤ per_page p.
Proof.
  unfold page. simpl. rewrite length_take. case_decide; lia.
Qed.

Lemma length_get_page {A : Type} (python_int : string → option Z)
    (p : Paginator A) (number : option string) :
  length (page_items (get_page python_int p number)) ≤ per_page p.
Proof.
  unfold get_page. destruct (validate_number python_int p number) as [[]|];
    apply length_page.
Qed.

(** The items of a page are a segment of the paginator's list. *)
Lemma page_items_sublist {A : Type} (p : Paginator A) (n : nat) :
  page_items (page p n) `sublist_of` object_list p.
Proof.
  unfold page. simpl.
  etrans; [apply sublist_take | apply sublist_drop].
Qed.

Lemma page_items_get_page_sublist {A : Type} (python_int : string → option Z)
    (p : Paginator A) (number : option string) :
  page_items (get_page python_int p number) `sublist_of` object_list p.
Proof.
  unfold get_page. destruct (validate_number python_int p number) as [[]|];
    apply page_items_sublist.
Qed.

Lemma annotate_count_sorted (name : string) (s : Store) (l : list (Obj Post.t)) :
  StronglySorted newer_first l →
  StronglySorted newer_first (annotate_count name s l).
Proof.
  unfold annotate_count. apply StronglySorted_fmap. intros x y Hxy. exact Hxy.
Qed.

Lemma count_ordered_annotated (python_int : string → option Z) (name : string)
    (s : Store) (l : list (Obj Post.t)) (number : option string) :
  count (paginator (get_page python_int
           (mkPaginator (order_by_pub_date_desc (annotate_count name s l))
              PAGINATOR_PAGES) number)) = length l.
Proof.
  rewrite paginator_get_page. unfold count. simpl.
  rewrite order_by_pub_date_desc_perm. apply length_annotate_count.
Qed.

Lemma count_annotated_ordered (python_int : string → option Z) (name : string)
    (s : Store) (l : list (Obj Post.t)) (number : option string) :
  count (paginator (get_page python_int
           (mkPaginator (annotate_count name s (order_by_pub_date_desc l))
              PAGINATOR_PAGES) number)) = length l.
Proof.
  rewrite paginator_get_page. unfold count. simpl.
  rewrite length_annotate_count. by rewrite order_by_pub_date_desc_perm.
Qed.

(** C9.  Each of the three listings hands its template a page of at most ten
    items, of a paginator whose count is the number of posts of the store
    that match the listing's filter; the category and profile listings answer
    otherwise only with not-found, or with a server error when the slug or
    the user name is not unique. *)
Theorem listings_paginated (python_int : string → option Z) (s : Store)
    (now : Z) (request : Request) :
  (∃ page_obj,
     respond (index python_int now request) s
     = (Render "blog/index.html" [("page_obj", CPage page_obj)], s)
     ∧ length (page_items page_obj) ≤ 10
     ∧ count (paginator page_obj)
       = length (filter (index_filter s now) (objects (posts s))))
  ∧ (∀ category_slug,
       (∃ message,
          respond (category_posts python_int now request category_slug) s
          = (NotFound message, s))
       ∨ respond (category_posts python_int now request category_slug) s
         = (ServerError "MultipleObjectsReturned", s)
       ∨ ∃ category page_obj,
           respond (category_posts python_int now request category_slug) s
           = (Render "blog/category.html"
                [("category", CCategory category);
                 ("page_obj", CPage page_obj)], s)
           ∧ length (page_items page_obj) ≤ 10
           ∧ count (paginator page_obj)
             = length (filter (category_filter (pk category) now)
                         (objects (posts s))))
  ∧ (∀ username,
       (∃ message,
          respond (profile python_int now request username) s
          = (NotFound message, s))
       ∨ respond (profile python_int now request username) s
         = (ServerError "MultipleObjectsReturned", s)
       ∨ ∃ owner page_obj,
           respond (profile python_int now request username) s
           = (Render "blog/profile.html"
                [("profile", CUser owner); ("page_obj", CPage page_obj)], s)
           ∧ length (page_items page_obj) ≤ 10
           ∧ count (paginator page_obj)
             = if is_user (pk owner) (user request)
               then length (filter (own_filter (pk owner)) (objects (posts s)))
               else length (filter (profile_filter s (pk owner) now)
                              (objects (posts s)))).
Proof.
  split_and!.
  - eexists. split; [reflexivity |]. split.
    + apply (length_get_page python_int).
    + apply count_ordered_annotated.
  - intros category_slug. unfold category_posts. run.
    destruct (filter _ (objects (categories s))) as [|category [|? ?]];
      [left; eauto | | right; left; reflexivity].
    right; right. exists category. eexists. split; [reflexivity |]. split.
    + apply (length_get_page python_int).
    + apply count_annotated_ordered.
  - intros username. unfold profile. run.
    destruct (filter _ (objects (users s))) as [|owner [|? ?]];
      [left; eauto | | right; left; reflexivity].
    right; right. exists owner. eexists. split; [reflexivity |]. split.
    + apply (length_get_page python_int).
    + destruct (is_user (pk owner) (user request));
        apply count_ordered_annotated.
Qed.

(** *** Which page [get_page] cuts *)

Lemma page_items_page {A : Type} (p : Paginator A) (n : nat) :
  page_items (page p n)
  = take (per_page p) (drop ((n - 1) * per_page p) (object_list p)).
Proof.
  unfold page, count. simpl. case_decide as Hle.
  - rewrite !take_ge; [reflexivity | |]; rewrite length_drop; lia.
  - f_equal. lia.
Qed.

Lemma number_page {A : Type} (p : Paginator A) (n : nat) :
  number (page p n) = n.
Proof. reflexivity. Qed.

Lemma num_pages_ten {A : Type} (l : list A) :
  1 ≤ num_pages (mkPaginator l PAGINATOR_PAGES).
Proof.
  unfold num_pages, PAGINATOR_PAGES, count. simpl.
  apply (Nat.div_le_lower_bound _ 10 1); lia.
Qed.

(** What [get_page] makes of the [page] entry of the query string, for a
    paginator of ten items a page. *)
Lemma get_page_ten {A : Type} (python_int : string → option Z) (l : list A)
    (raw : option string) :
  let p := mkPaginator l PAGINATOR_PAGES in
  let shown := get_page python_int p raw in
  paginator shown = p
  ∧ page_items shown = take 10 (drop ((number shown - 1) * 10) l)
  ∧ 1 ≤ number shown ≤ num_pages p
  ∧ match raw ≫= python_int with
    | None => number shown = 1
    | Some n =>
        if decide (1 ≤ n ≤ Z.of_nat (num_pages p))%Z
        then number shown = Z.to_nat n
        else number shown = num_pages p
    end.
Proof.
  intros p shown. subst shown.
  pose proof (num_pages_ten l) as Hpages. fold p in Hpages.
  split; [apply paginator_get_page |].
  assert (Hitems : ∀ n, page_items (page p n) = take 10 (drop ((n - 1) * 10) l)).
  { intros n. apply page_items_page. }
  unfold get_page, validate_number.
  destruct (raw ≫= python_int) as [n|].
  2:{ rewrite Hitems, number_page. repeat split; try done; lia. }
  destruct (n <? 1)%Z eqn:Hlow.
  { apply Z.ltb_lt in Hlow. rewrite Hitems, number_page.
    rewrite decide_False by lia. repeat split; try done; lia. }
  apply Z.ltb_ge in Hlow.
  destruct (Z.of_nat (num_pages p) <? n)%Z eqn:Hhigh.
  { apply Z.ltb_lt in Hhigh. rewrite Hitems, number_page.
    rewrite decide_False by lia. repeat split; try done; lia. }
  apply Z.ltb_ge in Hhigh. rewrite Hitems, number_page.
  rewrite decide_True by lia. repeat split; try done; lia.
Qed.

(** *** Looking a row up by a unique column *)

Lemma get_where_unique {A : Type} (table : Store → gmap nat A) (P : A → Prop)
    `{!∀ a, Decision (P a)} (s : Store) (k : nat) (r : A) :
  table s !! k = Some r → P r →
  (∀ k' r', table s !! k' = Some r' → P r' → k' = k) →
  get_where_or_404 table P s = (inr (mkObj k r []), s).
Proof.
  intros Hk HP Huniq. unfold get_where_or_404. run.
  rewrite (NoDup_singleton_all _ (mkObj k r [])); [reflexivity | | |].
  - apply NoDup_filter, NoDup_objects.
  - apply list_elem_of_filter. split; [done |]. by apply elem_of_objects.
  - intros o Ho. apply list_elem_of_filter in Ho as [HPo Ho].
    apply elem_of_objects in Ho as [Hl Ha].
    assert (pk o = k) by eauto.
    destruct o; simpl in *; subst. congruence.
Qed.

Lemma get_where_none {A : Type} (table : Store → gmap nat A) (P : A → Prop)
    `{!∀ a, Decision (P a)} (s : Store) :
  (∀ k r, table s !! k = Some r → ¬ P r) →
  get_where_or_404 table P s
  = (inl (Http404 "No object matches the given query."), s).
Proof.
  intros Hnone. unfold get_where_or_404. run.
  destruct (filter _ (objects (table s))) as [|o l] eqn:Hf; [reflexivity |].
  exfalso. assert (Hin : o ∈ filter (λ o, P (row o)) (objects (table s))).
  { rewrite Hf. left. }
  apply list_elem_of_filter in Hin as [HP Hin].
  apply elem_of_objects in Hin as [Hl _]. exact (Hnone _ _ Hl HP).
Qed.

(** C6.  With slugs unique among the categories, the category feed is
    not-found when every category of that slug (if any) is unpublished;
    otherwise the list it paginates holds exactly the posts of that category
    that are published with a publication time not after now, each once, in
    descending order of publication time, and the page it returns holds the
    ten posts of that list (fewer on the last page) that start at ten times
    the pages before it: the first page when the [page] parameter is absent or
    not an integer, the last page when the integer is below one or beyond the
    last page, and the page asked for otherwise. *)
Theorem category_posts_feed (python_int : string → option Z) (s : Store)
    (now : Z) (request : Request) (category_slug : string) :
  (∀ k1 k2 c1 c2,
     categories s !! k1 = Some c1 → categories s !! k2 = Some c2 →
     Category.slug c1 = Category.slug c2 → k1 = k2) →
  ((∀ k c, categories s !! k = Some c → Category.slug c = category_slug →
           Category.is_published c = false) →
   ∃ message,
     respond (category_posts python_int now request category_slug) s
     = (NotFound message, s))
  ∧ (∀ k c,
       categories s !! k = Some c → Category.slug c = category_slug →
       Category.is_published c = true →
       ∃ page_obj,
         respond (category_posts python_int now request category_slug) s
         = (Render "blog/category.html"
              [("category", CCategory (mkObj k c []));
               ("page_obj", CPage page_obj)], s)
         ∧ (∀ kp p,
              (kp, p) ∈ rows_of (object_list (paginator page_obj))
              ↔ posts s !! kp = Some p
                ∧ Post.category p = k
                ∧ Post.is_published p = true
                ∧ (Post.pub_date p ≤ now)%Z)
         ∧ NoDup (rows_of (object_list (paginator page_obj)))
         ∧ StronglySorted newer_first (object_list (paginator page_obj))
         ∧ page_items page_obj `sublist_of` object_list (paginator page_obj)
         ∧ page_items page_obj
           = take 10 (drop ((number page_obj - 1) * 10)
                        (object_list (paginator page_obj)))
         ∧ 1 ≤ number page_obj ≤ num_pages (paginator page_obj)
         ∧ match GET_data request !! "page" ≫= python_int with
           | None => number page_obj = 1
           | Some n =>
               if decide (1 ≤ n ≤ Z.of_nat (num_pages (paginator page_obj)))%Z
               then number page_obj = Z.to_nat n
               else number page_obj = num_pages (paginator page_obj)
           end).
Proof.
  intros Huniq. split.
  - intros Hunpub. unfold category_posts.
    unfold respond, mbind, M_bind.
    rewrite get_where_none; [eauto |].
    intros k c Hk [Hslug Hpub]. rewrite (Hunpub k c Hk Hslug) in Hpub.
    discriminate.
  - intros k c Hk Hslug Hpub. unfold category_posts.
    unfold respond, mbind, M_bind.
    rewrite (get_where_unique categories _ s k c Hk); [| done |].
    2:{ intros k' c' Hk' [Hslug' _]. apply (Huniq k' k c' c); congruence. }
    run. eexists. split; [reflexivity |].
    match goal with
    | |- context [get_page python_int (mkPaginator ?l PAGINATOR_PAGES) ?raw] =>
        destruct (get_page_ten python_int l raw)
          as (Hpag & Hitems & Hnum & Hsel)
    end.
    rewrite Hpag. simpl object_list.
    split.
    { intros kp p. rewrite rows_of_annotate_count, rows_of_order_by.
      rewrite elem_of_rows_of_filter. unfold category_filter. simpl. tauto. }
    split.
    { rewrite rows_of_annotate_count, rows_of_order_by.
      apply NoDup_rows_of_filter. }
    split.
    { apply annotate_count_sorted, order_by_pub_date_desc_sorted. }
    split.
    { apply (page_items_get_page_sublist python_int). }
    split; [exact Hitems |]. split; [exact Hnum |]. exact Hsel.
Qed.

(** ** Comments *)

Section CommentHandlers.

Variable field_clean : Store → string → string → option string → option value.
Variable model_defaults : string → gmap string value.

Lemma or_None_Some (d : gmap string string) (name raw : string) :
  d !! name = Some raw → or_None d = Some d.
Proof.
  intros Hd. unfold or_None. case_decide as He; [| reflexivity].
  rewrite He, lookup_empty in Hd. discriminate.
Qed.

Lemma inst_pk_construct_instance (cd : gmap string value) (names : list string)
    (i : Instance) :
  inst_pk (construct_instance cd names i) = inst_pk i.
Proof.
  induction names as [|n names IH]; simpl; [reflexivity |].
  destruct (cd !! n) as [[]|]; simpl; exact IH.
Qed.

Lemma inst_pk_save_commit_false (f : ModelForm) (cd : gmap string value) :
  inst_pk (save_commit_false model_defaults f cd)
  = form_instance f ≫= inst_pk.
Proof.
  unfold save_commit_false. rewrite inst_pk_construct_instance.
  destruct (form_instance f); reflexivity.
Qed.

(** The comment form reads the entry [text] of the submitted data and no
    other. *)
Lemma full_clean_CommentForm (s : Store) (d : option (gmap string string))
    (i : option Instance) :
  full_clean field_clean s (CommentForm d i)
  = data ← d;
    v ← field_clean s "Comments" "text" (data !! "text");
    Some (<["text" := v]> (∅ : gmap string value)).
Proof.
  unfold full_clean, CommentForm, is_bound. simpl.
  destruct d as [data|]; simpl; [| reflexivity].
  unfold value_from_datadict. simpl.
  destruct (field_clean s "Comments" "text" (data !! "text")); reflexivity.
Qed.

(** What [add_comment] does for a logged-in user on an existing post. *)
Lemma add_comment_run (s : Store) (request : Request) (id : nat) (p : Post.t)
    (k : nat) (u : User.t) :
  user request = SessionUser k u →
  posts s !! id = Some p →
  respond (add_comment field_clean model_defaults request id) s
  = match full_clean field_clean s
            (CommentForm (or_None (POST_data request)) None) with
    | Some cleaned_data =>
        match Comments_of_attrs
                (<["post" := VRef id]>
                   (<["author" := VRef k]>
                      (attrs (save_commit_false model_defaults
                                (CommentForm (or_None (POST_data request)) None)
                                cleaned_data)))) with
        | Some r =>
            (Redirect (url_post_detail id),
             set_comments (<[next_pk (comments s) := r]>) s)
        | None => (ServerError "IntegrityError", s)
        end
    | None => (Redirect (url_post_detail id), s)
    end.
Proof.
  intros Hu Hp. unfold add_comment. run. rewrite Hu, Hp. simpl.
  destruct (full_clean _ s _) as [cd|]; simpl; [| reflexivity].
  destruct (Comments_of_attrs _) as [r|]; [| reflexivity].
  rewrite inst_pk_save_commit_false. reflexivity.
Qed.

Lemma comment_instance_complete (d : option (gmap string string))
    (id k : nat) (t : string) :
  Comments_of_attrs
    (<["post" := VRef id]>
       (<["author" := VRef k]>
          (attrs (save_commit_false model_defaults (CommentForm d None)
                    (<["text" := VStr t]> ∅)))))
  = Some (Comments.mk t k id).
Proof.
  unfold save_commit_false, CommentForm. simpl.
  rewrite lookup_insert_eq. unfold Comments_of_attrs, setattr. simpl.
  repeat (rewrite lookup_insert_eq || rewrite lookup_insert_ne by done); simpl.
  repeat (rewrite lookup_insert_eq || rewrite lookup_insert_ne by done); simpl.
  repeat (rewrite lookup_insert_eq || rewrite lookup_insert_ne by done); simpl.
  reflexivity.
Qed.

Lemma add_comment_valid (s : Store) (request : Request) (id : nat) (p : Post.t)
    (k : nat) (u : User.t) (raw t : string) :
  user request = SessionUser k u →
  posts s !! id = Some p →
  POST_data request !! "text" = Some raw →
  field_clean s "Comments" "text" (Some raw) = Some (VStr t) →
  respond (add_comment field_clean model_defaults request id) s
  = (Redirect (url_post_detail id),
     set_comments (<[next_pk (comments s) := Comments.mk t k id]>) s).
Proof.
  intros Hu Hp Hraw Hclean. rewrite (add_comment_run s request id p k u Hu Hp).
  rewrite full_clean_CommentForm, (or_None_Some _ _ _ Hraw). simpl.
  rewrite Hraw, Hclean. simpl.
  rewrite comment_instance_complete. reflexivity.
Qed.

(** With a text field that cleans to a string, [add_comment] always answers
    with the redirect, and leaves the store as it is when the form is
    invalid. *)
Lemma add_comment_redirects (s : Store) (request : Request) (id : nat)
    (p : Post.t) (k : nat) (u : User.t) :
  user request = SessionUser k u →
  posts s !! id = Some p →
  (∀ raw v, field_clean s "Comments" "text" raw = Some v → ∃ t, v = VStr t) →
  (∃ s', respond (add_comment field_clean model_defaults request id) s
         = (Redirect (url_post_detail id), s'))
  ∧ (is_valid field_clean s (CommentForm (or_None (POST_data request)) None)
     = false →
     respond (add_comment field_clean model_defaults request id) s
     = (Redirect (url_post_detail id), s)).
Proof.
  intros Hu Hp Htyped. rewrite (add_comment_run s request id p k u Hu Hp).
  unfold is_valid. rewrite full_clean_CommentForm.
  destruct (or_None (POST_data request)) as [data|]; simpl; [| eauto].
  destruct (field_clean s "Comments" "text" (data !! "text")) as [v|] eqn:Hv;
    simpl; [| eauto].
  destruct (Htyped _ _ Hv) as [t ->].
  rewrite comment_instance_complete. split; [eauto |].
  intros Hinvalid. discriminate Hinvalid.
Qed.

Lemma length_comments_of_insert (s : Store) (c : Comments.t) (id : nat) :
  length (comments_of (set_comments (<[next_pk (comments s) := c]>) s) id)
  = if decide (Comments.post c = id)
    then S (length (comments_of s id))
    else length (comments_of s id).
Proof.
  unfold comments_of, set_comments. simpl.
  rewrite (objects_insert_fresh _ _ _ (next_pk_fresh (comments s))).
  rewrite filter_cons. simpl. case_decide; reflexivity.
Qed.

End CommentHandlers.

(** C4.  A logged-in user who submits text that the comment's text field
    accepts, to an existing post, adds exactly one comment: it is stored under
    a key that was free, its author is the submitting user and its post the
    addressed one, that post's comment count grows by one and no other
    post's changes, nothing else in the store changes, and any other request
    of the same user with the same text has the same effect, whatever else
    (an author, a post) its data carries. *)
Theorem add_comment_creates_one
    (field_clean : Store → string → string → option string → option value)
    (model_defaults : string → gmap string value)
    (s : Store) (request : Request) (id : nat) (p : Post.t)
    (k : nat) (u : User.t) (raw t : string) :
  user request = SessionUser k u →
  posts s !! id = Some p →
  POST_data request !! "text" = Some raw →
  field_clean s "Comments" "text" (Some raw) = Some (VStr t) →
  ∃ s',
    respond (add_comment field_clean model_defaults request id) s
    = (Redirect (url_post_detail id), s')
    ∧ comments s !! next_pk (comments s) = None
    ∧ comments s'
      = <[next_pk (comments s) := Comments.mk t k id]> (comments s)
    ∧ length (comments_of s' id) = S (length (comments_of s id))
    ∧ (∀ id', id' ≠ id →
         length (comments_of s' id') = length (comments_of s id'))
    ∧ users s' = users s ∧ categories s' = categories s ∧ posts s' = posts s
    ∧ (∀ request',
         user request' = user request →
         POST_data request' !! "text" = Some raw →
         respond (add_comment field_clean model_defaults request' id) s
         = (Redirect (url_post_detail id), s')).
Proof.
  intros Hu Hp Hraw Hclean. eexists. split.
  { apply (add_comment_valid field_clean model_defaults s request id p k u raw t);
      assumption. }
  split_and!; try reflexivity.
  - apply next_pk_fresh.
  - rewrite length_comments_of_insert. simpl. by rewrite decide_True.
  - intros id' Hne. rewrite length_comments_of_insert. simpl.
    by rewrite decide_False.
  - intros request' Hu' Hraw'.
    apply (add_comment_valid field_clean model_defaults s request' id p k u raw t);
      [congruence | assumption | assumption | assumption].
Qed.

Lemma add_comment_creates_one_witness :
  ∃ s',
    respond (add_comment Sample.field_clean Sample.model_defaults
               (Sample.request_of POST Sample.as_bob
                  (<["text" := "Hello"]> (<["author" := "1"]> ∅))) 1)
      Sample.store
    = (Redirect (url_post_detail 1), s')
    ∧ comments s' !! 3 = Some (Comments.mk "Hello" 2 1)
    ∧ length (comments_of s' 1) = 3.
Proof.
  destruct (add_comment_creates_one Sample.field_clean Sample.model_defaults
              Sample.store
              (Sample.request_of POST Sample.as_bob
                 (<["text" := "Hello"]> (<["author" := "1"]> ∅)))
              1 Sample.public_post 2 Sample.bob "Hello" "Hello")
    as (s' & Hrun & _ & Hcomments & Hcount & _);
    [reflexivity | reflexivity | reflexivity | reflexivity |].
  exists s'. split_and!; [exact Hrun | | ].
  - rewrite Hcomments. reflexivity.
  - rewrite Hcount. reflexivity.
Defined.

(** C7.  For a logged-in user and an existing post, with a text field that
    cleans to a string, [add_comment] answers in every case with the redirect
    to that post's detail view; when the form is invalid the store is left
    exactly as it was, and the answer is that same redirect, which carries no
    error. *)
Theorem add_comment_always_redirects
    (field_clean : Store → string → string → option string → option value)
    (model_defaults : string → gmap string value)
    (s : Store) (request : Request) (id : nat) (p : Post.t)
    (k : nat) (u : User.t) :
  user request = SessionUser k u →
  posts s !! id = Some p →
  (∀ raw v, field_clean s "Comments" "text" raw = Some v → ∃ t, v = VStr t) →
  (∃ s', respond (add_comment field_clean model_defaults request id) s
         = (Redirect (url_post_detail id), s'))
  ∧ (is_valid field_clean s (CommentForm (or_None (POST_data request)) None)
     = false →
     respond (add_comment field_clean model_defaults request id) s
     = (Redirect (url_post_detail id), s)).
Proof.
  intros Hu Hp Htyped.
  exact (add_comment_redirects field_clean model_defaults s request id p k u
           Hu Hp Htyped).
Qed.

Lemma sample_text_is_string (s : Store) (raw : option string) (v : value) :
  Sample.field_clean s "Comments" "text" raw = Some v → ∃ t, v = VStr t.
Proof.
  unfold Sample.field_clean. simpl. unfold Sample.required_text.
  destruct raw as [[|a rest]|]; intros [= <-]; eauto.
Qed.

Lemma add_comment_always_redirects_witness :
  respond (add_comment Sample.field_clean Sample.model_defaults
             (Sample.request_of POST Sample.as_bob (<["text" := ""]> ∅)) 1)
    Sample.store
  = (Redirect (url_post_detail 1), Sample.store).
Proof.
  apply (add_comment_always_redirects Sample.field_clean Sample.model_defaults
           Sample.store
           (Sample.request_of POST Sample.as_bob (<["text" := ""]> ∅))
           1 Sample.public_post 2 Sample.bob);
    [reflexivity | reflexivity | apply sample_text_is_string | reflexivity].
Defined.

(** C10.  [add_comment] looks at no visibility condition: on a post that fails
    the visibility predicate, a logged-in user who is not its author and who
    gets not-found from the detail view still adds a comment to it by
    submitting accepted text. *)
Theorem add_comment_ignores_visibility
    (field_clean : Store → string → string → option string → option value)
    (model_defaults : string → gmap string value)
    (s : Store) (now : Z) (request : Request) (id : nat) (p : Post.t)
    (c : Category.t) (k : nat) (u : User.t) (raw t : string) :
  user request = SessionUser k u →
  posts s !! id = Some p →
  categories s !! Post.category p = Some c →
  Post.author p ≠ k →
  ¬ is_visible s now p →
  POST_data request !! "text" = Some raw →
  field_clean s "Comments" "text" (Some raw) = Some (VStr t) →
  (∃ message, respond (post_detail now request id) s = (NotFound message, s))
  ∧ ∃ s',
      respond (add_comment field_clean model_defaults request id) s
      = (Redirect (url_post_detail id), s')
      ∧ comments s !! next_pk (comments s) = None
      ∧ comments s' !! next_pk (comments s) = Some (Comments.mk t k id)
      ∧ length (comments_of s' id) = S (length (comments_of s id)).
Proof.
  intros Hu Hp Hc Hne Hhidden Hraw Hclean. split.
  - apply (post_detail_cases s now request id p c Hp Hc); [exact Hhidden |].
    rewrite Hu. simpl. by apply bool_decide_eq_false.
  - eexists. split.
    { apply (add_comment_valid field_clean model_defaults s request id p k u
               raw t); assumption. }
    split_and!.
    + apply next_pk_fresh.
    + simpl. apply lookup_insert_eq.
    + rewrite length_comments_of_insert. simpl. by rewrite decide_True.
Qed.

Lemma add_comment_ignores_visibility_witness :
  (∃ message,
     respond (post_detail Sample.now
                (Sample.request_of POST Sample.as_bob
                   (<["text" := "Seen"]> ∅)) 2) Sample.store
     = (NotFound message, Sample.store))
  ∧ ∃ s',
      respond (add_comment Sample.field_clean Sample.model_defaults
                 (Sample.request_of POST Sample.as_bob
                    (<["text" := "Seen"]> ∅)) 2) Sample.store
      = (Redirect (url_post_detail 2), s')
      ∧ comments s' !! 3 = Some (Comments.mk "Seen" 2 2)
      ∧ length (comments_of s' 2) = 1.
Proof.
  destruct (add_comment_ignores_visibility Sample.field_clean
              Sample.model_defaults Sample.store Sample.now
              (Sample.request_of POST Sample.as_bob (<["text" := "Seen"]> ∅))
              2 Sample.hidden_post Sample.travel 2 Sample.bob "Seen" "Seen")
    as (Hdetail & s' & Hrun & _ & Hnew & Hcount);
    [ reflexivity | reflexivity | reflexivity
    | simpl; lia
    | unfold is_visible; simpl; intros [Hpub _]; discriminate
    | reflexivity
    | reflexivity
    | ].
  split; [exact Hdetail |].
  exists s'. split_and!; [exact Hrun | exact Hnew | rewrite Hcount; reflexivity].
Defined.

(** ** Mutations gated on the author *)

(** C8.  For the logged-in author of a post, a GET request to [delete_post]
    renders the form of the post as the confirmation and leaves the store as
    it is; a POST request removes the post from the table of posts, touches no
    other post, user or category, and redirects to the profile page of the
    requesting user, who is the author. *)
Theorem delete_post_by_author (s : Store) (request : Request) (id : nat)
    (p : Post.t) (k : nat) (u : User.t) :
  user request = SessionUser k u →
  posts s !! id = Some p →
  Post.author p = k →
  (method request = GET →
   respond (delete_post request id) s
   = (Render "blog/create.html"
        [("form",
          CForm (PostForm None None (Some (to_instance_Post (mkObj id p [])))))],
      s))
  ∧ (method request = POST →
     ∃ s',
       respond (delete_post request id) s
       = (Redirect (url_profile (User.username u)), s')
       ∧ posts s' = delete id (posts s)
       ∧ posts s' !! id = None
       ∧ (∀ id', id' ≠ id → posts s' !! id' = posts s !! id')
       ∧ users s' = users s
       ∧ categories s' = categories s).
Proof.
  intros Hu Hp Hauthor. unfold delete_post. run. rewrite Hu, Hp. simpl.
  rewrite bool_decide_eq_true_2 by exact Hauthor. simpl. split.
  - intros ->. reflexivity.
  - intros ->. eexists. split; [reflexivity |]. simpl. split_and!; try reflexivity.
    + apply lookup_delete_eq.
    + intros id' Hne. by apply lookup_delete_ne.
Qed.

Lemma delete_post_by_author_witness :
  respond (delete_post (Sample.request_of GET Sample.as_alice ∅) 1) Sample.store
  = (Render "blog/create.html"
       [("form",
         CForm (PostForm None None
                  (Some (to_instance_Post (mkObj 1 Sample.public_post [])))))],
     Sample.store)
  ∧ ∃ s',
      respond (delete_post (Sample.request_of POST Sample.as_alice ∅) 1)
        Sample.store
      = (Redirect (url_profile "alice"), s')
      ∧ posts s' !! 1 = None.
Proof.
  split.
  - apply (delete_post_by_author Sample.store
             (Sample.request_of GET Sample.as_alice ∅) 1 Sample.public_post
             1 Sample.alice); reflexivity.
  - destruct (delete_post_by_author Sample.store
                (Sample.request_of POST Sample.as_alice ∅) 1 Sample.public_post
                1 Sample.alice) as [_ Hpost];
      [reflexivity | reflexivity | reflexivity |].
    destruct (Hpost eq_refl) as (s' & Hrun & _ & Hgone & _).
    exists s'. split; [exact Hrun | exact Hgone].
Defined.

Section NonAuthor.

Variable field_clean : Store → string → string → option string → option value.
Variable model_defaults : string → gmap string value.

(** What the four mutation handlers answer to a logged-in user who is not the
    author: the store is left as it is, and the redirect goes to the detail
    view of the post named by the first argument of the route, except in
    [delete_comment], where it goes to the detail view of the post whose key is
    the comment's key. *)
Lemma mutations_by_non_author (s : Store) (request : Request) (k : nat)
    (u : User.t) :
  user request = SessionUser k u →
  (∀ id p,
     posts s !! id = Some p → Post.author p ≠ k →
     respond (edit_post field_clean model_defaults request id) s
     = (Redirect (url_post_detail id), s)
     ∧ respond (delete_post request id) s = (Redirect (url_post_detail id), s))
  ∧ (∀ id comment_id c,
       comments s !! comment_id = Some c → Comments.author c ≠ k →
       respond (edit_comment field_clean model_defaults request id comment_id) s
       = (Redirect (url_post_detail id), s)
       ∧ respond (delete_comment request id comment_id) s
         = (Redirect (url_post_detail comment_id), s)).
Proof.
  intros Hu. split.
  - intros id p Hp Hne. unfold edit_post, delete_post. run.
    rewrite Hu, Hp. simpl. rewrite bool_decide_eq_false_2 by exact Hne.
    split; reflexivity.
  - intros id comment_id c Hc Hne. unfold edit_comment, delete_comment. run.
    rewrite Hu, Hc. simpl. rewrite bool_decide_eq_false_2 by exact Hne.
    split; reflexivity.
Qed.

End NonAuthor.

(** C2.  The comment with key 2 of the sample store belongs to post 1 and was
    written by Alice.  Bob, logged in, asks to delete it through the route of
    post 1: the store is left as it is, but the redirect goes to the detail
    view of post 2 (the comment's own key), not to that of post 1, at which
    [edit_comment] and the other branches of [delete_comment] point. *)
Theorem delete_comment_non_author_redirect :
  comments Sample.store !! 2 = Some (Comments.mk "Thanks" 1 1)
  ∧ respond (delete_comment (Sample.request_of POST Sample.as_bob ∅) 1 2)
      Sample.store
    = (Redirect (url_post_detail 2), Sample.store)
  ∧ respond (edit_comment Sample.field_clean Sample.model_defaults
               (Sample.request_of POST Sample.as_bob ∅) 1 2) Sample.store
    = (Redirect (url_post_detail 1), Sample.store)
  ∧ respond (delete_comment (Sample.request_of POST Sample.as_alice ∅) 1 2)
      Sample.store
    = (Redirect (url_post_detail 1),
       set_comments (delete 2) Sample.store).
Proof.
  split_and!; reflexivity.
Qed.

(** ** The profile feed *)

(** What [profile] lists, when user names are unique: the owner gets every
    post of theirs, any other viewer those that are published, in a published
    category, with a publication time strictly before now; newest first. *)
Lemma profile_feed (python_int : string → option Z) (s : Store) (now : Z)
    (request : Request) (username : string) (k : nat) (u : User.t) :
  (∀ k1 k2 u1 u2,
     users s !! k1 = Some u1 → users s !! k2 = Some u2 →
     User.username u1 = User.username u2 → k1 = k2) →
  users s !! k = Some u →
  User.username u = username →
  ∃ page_obj,
    respond (profile python_int now request username) s
    = (Render "blog/profile.html"
         [("profile", CUser (mkObj k u [])); ("page_obj", CPage page_obj)], s)
    ∧ (∀ kp p,
         (kp, p) ∈ rows_of (object_list (paginator page_obj))
         ↔ posts s !! kp = Some p
           ∧ Post.author p = k
           ∧ (is_user k (user request) = true
              ∨ (Post.is_published p = true
                 ∧ category__is_published s p
                 ∧ (Post.pub_date p < now)%Z)))
    ∧ NoDup (rows_of (object_list (paginator page_obj)))
    ∧ StronglySorted newer_first (object_list (paginator page_obj)).
Proof.
  intros Huniq Hk Hname. unfold profile.
  unfold respond, mbind, M_bind.
  rewrite (get_where_unique users _ s k u Hk Hname).
  2:{ intros k' u' Hk' Hname'. apply (Huniq k' k u' u); congruence. }
  run. eexists. split; [reflexivity |].
  rewrite paginator_get_page. simpl.
  destruct (is_user k (user request)) eqn:Hu; split_and!.
  - intros kp p. rewrite rows_of_order_by, rows_of_annotate_count.
    rewrite elem_of_rows_of_filter. unfold own_filter. simpl. tauto.
  - rewrite rows_of_order_by, rows_of_annotate_count.
    apply NoDup_rows_of_filter.
  - apply order_by_pub_date_desc_sorted.
  - intros kp p. rewrite rows_of_order_by, rows_of_annotate_count.
    rewrite elem_of_rows_of_filter. unfold profile_filter. simpl.
    split; [tauto |]. intros (? & ? & [? | ?]); [discriminate | tauto].
  - rewrite rows_of_order_by, rows_of_annotate_count.
    apply NoDup_rows_of_filter.
  - apply order_by_pub_date_desc_sorted.
Qed.

(** C3.  In the sample store Alice's post 5 is published, in a published
    category, with a publication time equal to the time of the request, so it
    satisfies the visibility predicate; the index lists it, but Alice's
    profile as Bob sees it does not, because [profile] asks for a publication
    time strictly before now where [index], [category_posts] and
    [post_detail] accept one equal to now.  Alice herself sees all five of her
    posts, newest first. *)
Theorem profile_omits_post_published_now :
  posts Sample.store !! 5 = Some Sample.fresh_post
  ∧ Post.author Sample.fresh_post = 1
  ∧ users Sample.store !! 1 = Some Sample.alice
  ∧ is_visible Sample.store Sample.now Sample.fresh_post
  ∧ (rows_of ∘ object_list ∘ paginator)
      <$> page_obj_of
            (respond (profile Sample.python_int Sample.now
                        (Sample.request_of GET Sample.as_bob ∅) "alice")
               Sample.store).1
    = Some [(1, Sample.public_post)]
  ∧ (rows_of ∘ object_list ∘ paginator)
      <$> page_obj_of
            (respond (index Sample.python_int Sample.now
                        (Sample.request_of GET Sample.as_bob ∅))
               Sample.store).1
    = Some [(5, Sample.fresh_post); (1, Sample.public_post)]
  ∧ (rows_of ∘ object_list ∘ paginator)
      <$> page_obj_of
            (respond (profile Sample.python_int Sample.now
                        (Sample.request_of GET Sample.as_alice ∅) "alice")
               Sample.store).1
    = Some [(4, Sample.future_post); (5, Sample.fresh_post);
            (1, Sample.public_post); (2, Sample.hidden_post);
            (3, Sample.shelved_post)].
Proof.
  split_and!; try reflexivity.
  unfold is_visible. split_and!; [reflexivity | reflexivity |].
  simpl. unfold Sample.now. lia.
Qed.

(** ** Creating a post *)

Section PostHandlers.

Variable field_clean : Store → string → string → option string → option value.
Variable model_defaults : string → gmap string value.

(** [exclude = ('author',)] leaves the other six columns. *)
Lemma PostForm_fields (d f : option (gmap string string)) (i : option Instance) :
  form_fields (PostForm d f i)
  = ["title"; "text"; "pub_date"; "is_published"; "image"; "category"].
Proof. reflexivity. Qed.

Lemma clean_fields_ext (clean : string → option string → option value)
    (raw1 raw2 : string → option string) (names : list string) :
  (∀ n, n ∈ names → raw1 n = raw2 n) →
  clean_fields clean raw1 names = clean_fields clean raw2 names.
Proof.
  induction names as [|n names IH]; intros Hraw; simpl; [reflexivity |].
  rewrite (Hraw n) by left. rewrite IH; [reflexivity |].
  intros m Hm. apply Hraw. by right.
Qed.

Lemma or_None_lookup (d : gmap string string) (n : string) :
  or_None d ≫= (λ data, data !! n) = d !! n.
Proof.
  unfold or_None. case_decide as He; simpl; [| reflexivity].
  rewrite He. symmetry. apply lookup_empty.
Qed.

Lemma is_Some_or_None (d1 d2 : gmap string string) :
  (d1 = ∅ ↔ d2 = ∅) →
  bool_decide (is_Some (or_None d1)) = bool_decide (is_Some (or_None d2)).
Proof.
  intros Hiff. unfold or_None.
  destruct (decide (d1 = ∅)) as [H1|H1], (decide (d2 = ∅)) as [H2|H2];
    try reflexivity; tauto.
Qed.

(** The post form is cleaned from the entries under its own six names: two
    submissions that differ at most under [author] clean alike. *)
Lemma full_clean_PostForm_ext (s : Store) (d1 d2 files : gmap string string)
    (i : option Instance) :
  (∀ n, n ≠ "author" → d1 !! n = d2 !! n) →
  (d1 = ∅ ↔ d2 = ∅) →
  full_clean field_clean s (PostForm (or_None d1) (or_None files) i)
  = full_clean field_clean s (PostForm (or_None d2) (or_None files) i).
Proof.
  intros Hagree Hempty. unfold full_clean, is_bound. simpl form_data.
  simpl form_files. rewrite (is_Some_or_None d1 d2 Hempty).
  destruct (_ || _); [| reflexivity].
  apply clean_fields_ext. intros n Hn. unfold value_from_datadict.
  simpl form_model. simpl form_files. simpl form_data.
  destruct (is_file_field "Post" n); [reflexivity |].
  rewrite !or_None_lookup. apply Hagree. intros ->.
  rewrite PostForm_fields in Hn. apply list_elem_of_In in Hn. simpl in Hn.
  intuition discriminate.
Qed.

Lemma Post_of_attrs_author (a : gmap string value) (k : nat) (r : Post.t) :
  Post_of_attrs (<["author" := VRef k]> a) = Some r → Post.author r = k.
Proof.
  unfold Post_of_attrs. rewrite lookup_insert_eq.
  intros H. simplify_option_eq. reflexivity.
Qed.

(** What [create_post] does for a logged-in user. *)
Lemma create_post_run (s : Store) (request : Request) (k : nat) (u : User.t) :
  user request = SessionUser k u →
  respond (create_post field_clean model_defaults request) s
  = let form :=
      PostForm (or_None (POST_data request)) (or_None (FILES request)) None in
    match full_clean field_clean s form with
    | Some cleaned_data =>
        match Post_of_attrs
                (<["author" := VRef k]>
                   (attrs (save_commit_false model_defaults form cleaned_data)))
        with
        | Some r =>
            (Redirect (url_profile (User.username u)),
             set_posts (<[next_pk (posts s) := r]>) s)
        | None => (ServerError "IntegrityError", s)
        end
    | None => (Render "blog/create.html" [("form", CForm form)], s)
    end.
Proof.
  intros Hu. unfold create_post. run. rewrite Hu. simpl.
  destruct (full_clean _ s _) as [cd|]; simpl; [| reflexivity].
  destruct (Post_of_attrs _) as [r|]; [| reflexivity].
  rewrite inst_pk_save_commit_false. reflexivity.
Qed.

End PostHandlers.

(** C5.  For a logged-in user, [create_post] either leaves the store as it is
    or adds, under a key that was free, one post whose author is the session's
    user; and the store it leaves is the same for any two requests of that
    user that carry the same files and the same data except possibly under
    [author] (both empty or both not). *)
Theorem create_post_author_from_session
    (field_clean : Store → string → string → option string → option value)
    (model_defaults : string → gmap string value)
    (s : Store) (request : Request) (k : nat) (u : User.t) :
  user request = SessionUser k u →
  ((respond (create_post field_clean model_defaults request) s).2 = s
   ∨ ∃ r,
       respond (create_post field_clean model_defaults request) s
       = (Redirect (url_profile (User.username u)),
          set_posts (<[next_pk (posts s) := r]>) s)
       ∧ posts s !! next_pk (posts s) = None
       ∧ Post.author r = k)
  ∧ (∀ request',
       user request' = user request →
       FILES request' = FILES request →
       (∀ n, n ≠ "author" → POST_data request' !! n = POST_data request !! n) →
       (POST_data request' = ∅ ↔ POST_data request = ∅) →
       (respond (create_post field_clean model_defaults request') s).2
       = (respond (create_post field_clean model_defaults request) s).2).
Proof.
  intros Hu. split.
  - rewrite (create_post_run field_clean model_defaults s request k u Hu).
    simpl. destruct (full_clean _ s _) as [cd|]; [| by left].
    destruct (Post_of_attrs _) as [r|] eqn:Hr; [| by left].
    right. exists r. split_and!; [reflexivity | apply next_pk_fresh |].
    exact (Post_of_attrs_author _ _ _ Hr).
  - intros request' Hu' Hfiles Hagree Hempty.
    rewrite (create_post_run field_clean model_defaults s request k u Hu).
    rewrite (create_post_run field_clean model_defaults s request' k u)
      by congruence.
    simpl. rewrite Hfiles.
    rewrite (full_clean_PostForm_ext field_clean s (POST_data request')
               (POST_data request) (FILES request) None Hagree Hempty).
    destruct (full_clean _ s _) as [cd|]; [| reflexivity].
    unfold save_commit_false. simpl.
    destruct (Post_of_attrs _) as [r|]; reflexivity.
Qed.

Lemma create_post_author_from_session_witness :
  let data : gmap string string :=
    <["title" := "Lisbon"]> (<["text" := "By train"]>
      (<["pub_date" := "90"]> (<["category" := "1"]> ∅))) in
  (respond (create_post Sample.field_clean Sample.model_defaults
              (Sample.request_of POST Sample.as_bob (<["author" := "1"]> data)))
     Sample.store).2
  = (respond (create_post Sample.field_clean Sample.model_defaults
                (Sample.request_of POST Sample.as_bob data)) Sample.store).2
  ∧ posts (respond (create_post Sample.field_clean Sample.model_defaults
                      (Sample.request_of POST Sample.as_bob
                         (<["author" := "1"]> data))) Sample.store).2 !! 6
    = Some (Post.mk "Lisbon" "By train" 90 false None 2 1).
Proof.
  intros data. split; [| reflexivity].
  apply (create_post_author_from_session Sample.field_clean
           Sample.model_defaults Sample.store
           (Sample.request_of POST Sample.as_bob data) 2 Sample.bob eq_refl).
  - reflexivity.
  - reflexivity.
  - intros n Hn. simpl. apply lookup_insert_ne. congruence.
  - simpl. split; intros He;
      apply (f_equal (λ m : gmap string string, m !! "title")) in He;
      vm_compute in He; discriminate He.
Defined.

Lemma sample_categories (k : nat) (c : Category.t) :
  categories Sample.store !! k = Some c →
  (k = 1 ∧ c = Sample.travel) ∨ (k = 2 ∧ c = Sample.drafts).
Proof.
  change (categories Sample.store)
    with (<[1 := Sample.travel]>
            (<[2 := Sample.drafts]> (∅ : gmap nat Category.t))).
  rewrite lookup_insert. case_decide as H1.
  { intros [= <-]. left. done. }
  rewrite lookup_insert. case_decide as H2.
  { intros [= <-]. right. done. }
  rewrite lookup_empty. discriminate.
Qed.

Lemma sample_slugs_unique (k1 k2 : nat) (c1 c2 : Category.t) :
  categories Sample.store !! k1 = Some c1 →
  categories Sample.store !! k2 = Some c2 →
  Category.slug c1 = Category.slug c2 → k1 = k2.
Proof.
  intros H1 H2 Hslug.
  apply sample_categories in H1 as [[-> ->] | [-> ->]];
    apply sample_categories in H2 as [[-> ->] | [-> ->]];
    try reflexivity; discriminate Hslug.
Qed.

Lemma category_posts_feed_witness :
  (∃ message,
     respond (category_posts Sample.python_int Sample.now
                (Sample.request_of GET AnonymousUser ∅) "drafts") Sample.store
     = (NotFound message, Sample.store))
  ∧ ∃ page_obj,
      respond (category_posts Sample.python_int Sample.now
                 (Sample.request_of GET AnonymousUser ∅) "travel") Sample.store
      = (Render "blog/category.html"
           [("category", CCategory (mkObj 1 Sample.travel []));
            ("page_obj", CPage page_obj)], Sample.store)
      ∧ (5, Sample.fresh_post) ∈ rows_of (object_list (paginator page_obj))
      ∧ ((4, Sample.future_post) ∉ rows_of (object_list (paginator page_obj)))
      ∧ number page_obj = 1
      ∧ rows_of (page_items page_obj)
        = [(5, Sample.fresh_post); (1, Sample.public_post)].
Proof.
  destruct (category_posts_feed Sample.python_int Sample.store Sample.now
              (Sample.request_of GET AnonymousUser ∅) "drafts"
              sample_slugs_unique) as [Hmissing _].
  destruct (category_posts_feed Sample.python_int Sample.store Sample.now
              (Sample.request_of GET AnonymousUser ∅) "travel"
              sample_slugs_unique) as [_ Hfound].
  split.
  - apply Hmissing. intros k c Hk Hslug.
    apply sample_categories in Hk as [[-> ->] | [-> ->]];
      [discriminate Hslug | reflexivity].
  - destruct (Hfound 1 Sample.travel)
      as (page_obj & Hrun & Hrows & _ & _ & _ & Hitems & _ & Hsel);
      [reflexivity | reflexivity | reflexivity |].
    exists page_obj. split_and!; [exact Hrun | | | exact Hsel |].
    + apply Hrows. split_and!; [reflexivity | reflexivity | reflexivity |].
      simpl. unfold Sample.now. lia.
    + intros Hin. apply Hrows in Hin as (_ & _ & _ & Hdate).
      simpl in Hdate. unfold Sample.now in Hdate. lia.
    + rewrite Hitems. simpl in Hsel. rewrite Hsel. clear Hitems Hsel Hrows.
      assert (Hpage : page_obj_of
                        (respond (category_posts Sample.python_int Sample.now
                                    (Sample.request_of GET AnonymousUser ∅)
                                    "travel") Sample.store).1
                      = Some page_obj) by (rewrite Hrun; reflexivity).
      vm_compute in Hpage. injection Hpage as <-. reflexivity.
Defined.

(** ** Further properties of the handlers *)

(** *** The listings, written out *)

Lemma index_run (python_int : string → option Z) (s : Store) (now : Z)
    (request : Request) :
  respond (index python_int now request) s
  = (Render "blog/index.html"
       [("page_obj",
         CPage (get_page python_int
                  (mkPaginator
                     (order_by_pub_date_desc
                        (annotate_count "comment_count" s
                           (filter (index_filter s now) (objects (posts s)))))
                     PAGINATOR_PAGES)
                  (GET_data request !! "page")))], s).
Proof. reflexivity. Qed.

(** The row a lookup by column returns is a row of the table that satisfies
    the condition. *)
Lemma get_where_found {A : Type} (table : Store → gmap nat A) (P : A → Prop)
    `{!∀ a, Decision (P a)} (s s' : Store) (o : Obj A) :
  get_where_or_404 table P s = (inr o, s') →
  s' = s ∧ table s !! pk o = Some (row o) ∧ annotations o = [] ∧ P (row o).
Proof.
  unfold get_where_or_404. run.
  destruct (filter _ (objects (table s))) as [|o' [|? ?]] eqn:Hf;
    intros [= <- <-].
  assert (Hin : o' ∈ filter (λ o, P (row o)) (objects (table s))).
  { rewrite Hf. left. }
  apply list_elem_of_filter in Hin as [HP Hin].
  apply elem_of_objects in Hin as [Hl Ha]. done.
Qed.

Lemma get_where_cases {A : Type} (table : Store → gmap nat A) (P : A → Prop)
    `{!∀ a, Decision (P a)} (s : Store) :
  (∃ message, get_where_or_404 table P s = (inl (Http404 message), s))
  ∨ get_where_or_404 table P s = (inl MultipleObjectsReturned, s)
  ∨ ∃ o, get_where_or_404 table P s = (inr o, s).
Proof.
  unfold get_where_or_404. run.
  destruct (filter _ (objects (table s))) as [|o [|? ?]]; eauto.
Qed.

Lemma category_posts_run (python_int : string → option Z) (s : Store)
    (now : Z) (request : Request) (category_slug : string) :
  (∃ message,
     respond (category_posts python_int now request category_slug) s
     = (NotFound message, s))
  ∨ respond (category_posts python_int now request category_slug) s
    = (ServerError "MultipleObjectsReturned", s)
  ∨ ∃ k c,
      categories s !! k = Some c
      ∧ Category.slug c = category_slug
      ∧ Category.is_published c = true
      ∧ respond (category_posts python_int now request category_slug) s
        = (Render "blog/category.html"
             [("category", CCategory (mkObj k c []));
              ("page_obj",
               CPage (get_page python_int
                        (mkPaginator
                           (annotate_count "comment_count" s
                              (order_by_pub_date_desc
                                 (filter (category_filter k now)
                                    (objects (posts s)))))
                           PAGINATOR_PAGES)
                        (GET_data request !! "page")))], s).
Proof.
  unfold category_posts, respond, mbind, M_bind.
  destruct (get_where_cases categories
              (λ c, Category.slug c = category_slug
                    ∧ Category.is_published c = true) s)
    as [[message ->] | [-> | [o Ho]]]; [left; eauto | right; left; done |].
  right; right. rewrite Ho.
  apply get_where_found in Ho as (_ & Hl & Ha & Hslug & Hpub).
  destruct o as [k c a]; simpl in *; subst a.
  exists k, c. split_and!; try done.
Qed.

Lemma profile_run (python_int : string → option Z) (s : Store)
    (now : Z) (request : Request) (username : string) :
  (∃ message,
     respond (profile python_int now request username) s
     = (NotFound message, s))
  ∨ respond (profile python_int now request username) s
    = (ServerError "MultipleObjectsReturned", s)
  ∨ ∃ k u,
      users s !! k = Some u
      ∧ User.username u = username
      ∧ respond (profile python_int now request username) s
        = (Render "blog/profile.html"
             [("profile", CUser (mkObj k u []));
              ("page_obj",
               CPage (get_page python_int
                        (mkPaginator
                           (if is_user k (user request)
                            then
                              order_by_pub_date_desc
                                (annotate_count "comment_count" s
                                   (filter (own_filter k) (objects (posts s))))
                            else
                              order_by_pub_date_desc
                                (annotate_count "comments_count" s
                                   (filter (profile_filter s k now)
                                      (objects (posts s)))))
                           PAGINATOR_PAGES)
                        (GET_data request !! "page")))], s).
Proof.
  unfold profile, respond, mbind, M_bind.
  destruct (get_where_cases users (λ u, User.username u = username) s)
    as [[message ->] | [-> | [o Ho]]]; [left; eauto | right; left; done |].
  right; right. rewrite Ho.
  apply get_where_found in Ho as (_ & Hl & Ha & Hname).
  destruct o as [k u a]; simpl in *; subst a.
  exists k, u. split_and!; try done.
Qed.

(** *** Requests that change nothing *)

Lemma post_detail_store (s : Store) (now : Z) (request : Request) (id : nat) :
  (respond (post_detail now request id) s).2 = s.
Proof.
  unfold post_detail. run.
  destruct (posts s !! id) as [p|]; simpl; [| reflexivity].
  destruct (_ && _); simpl; [reflexivity |].
  destruct (_ && _); simpl; [reflexivity |].
  destruct (categories s !! Post.category p) as [c|]; simpl; [| reflexivity].
  destruct (_ && _); reflexivity.
Qed.

(** X1.  The four handlers without a decorator never change the store,
    whatever the request, the viewer and the answer. *)
Theorem read_handlers_keep_store (python_int : string → option Z) (s : Store)
    (now : Z) (request : Request) :
  (respond (index python_int now request) s).2 = s
  ∧ (∀ id, (respond (post_detail now request id) s).2 = s)
  ∧ (∀ category_slug,
       (respond (category_posts python_int now request category_slug) s).2 = s)
  ∧ (∀ username,
       (respond (profile python_int now request username) s).2 = s).
Proof.
  split_and!.
  - reflexivity.
  - intros id. apply post_detail_store.
  - intros category_slug.
    destruct (category_posts_run python_int s now request category_slug)
      as [[? ->] | [-> | (? & ? & _ & _ & _ & ->)]]; reflexivity.
  - intros username.
    destruct (profile_run python_int s now request username)
      as [[? ->] | [-> | (? & ? & _ & _ & ->)]]; reflexivity.
Qed.

(** X2.  An anonymous request to any of the seven decorated handlers is
    answered by the redirect to the login page, carrying the path asked for,
    before any row is looked up, and the store is left as it is. *)
Theorem anonymous_sent_to_login
    (field_clean : Store → string → string → option string → option value)
    (model_defaults : string → gmap string value)
    (validate_unique : Store → string → Instance → bool)
    (s : Store) (request : Request) :
  user request = AnonymousUser →
  let login := (Redirect (url_login (path request)), s) in
  respond (create_post field_clean model_defaults request) s = login
  ∧ respond (edit_profile field_clean model_defaults validate_unique request) s
    = login
  ∧ (∀ id,
       respond (edit_post field_clean model_defaults request id) s = login
       ∧ respond (delete_post request id) s = login
       ∧ respond (add_comment field_clean model_defaults request id) s = login)
  ∧ (∀ id comment_id,
       respond (edit_comment field_clean model_defaults request id comment_id) s
       = login
       ∧ respond (delete_comment request id comment_id) s = login).
Proof.
  intros Hu login. subst login.
  unfold create_post, edit_profile, edit_post, delete_post, add_comment,
    edit_comment, delete_comment. run. rewrite Hu. done.
Qed.

Lemma anonymous_sent_to_login_witness :
  respond (delete_post (Sample.request_of POST AnonymousUser ∅) 1) Sample.store
  = (Redirect (url_login "/"), Sample.store).
Proof.
  apply (anonymous_sent_to_login Sample.field_clean Sample.model_defaults
           (λ _ _ _, true) Sample.store
           (Sample.request_of POST AnonymousUser ∅) eq_refl).
Defined.

(** X3.  A key that names no row gives not-found and changes nothing: a post
    key in [post_detail] for any viewer and in [edit_post], [delete_post] and
    [add_comment] for a logged-in user; a comment key in [edit_comment] and
    [delete_comment], whatever post key comes with it; a user name that no
    user bears in [profile]. *)
Theorem missing_row_not_found
    (python_int : string → option Z)
    (field_clean : Store → string → string → option string → option value)
    (model_defaults : string → gmap string value)
    (s : Store) (now : Z) (request : Request) :
  let missing (answer : Response * Store) :=
    ∃ message, answer = (NotFound message, s) in
  (∀ id, posts s !! id = None →
     missing (respond (post_detail now request id) s)
     ∧ (user request ≠ AnonymousUser →
        missing (respond (edit_post field_clean model_defaults request id) s)
        ∧ missing (respond (delete_post request id) s)
        ∧ missing
            (respond (add_comment field_clean model_defaults request id) s)))
  ∧ (∀ id comment_id, comments s !! comment_id = None →
       user request ≠ AnonymousUser →
       missing
         (respond (edit_comment field_clean model_defaults request id
                     comment_id) s)
       ∧ missing (respond (delete_comment request id comment_id) s))
  ∧ (∀ username,
       (∀ k u, users s !! k = Some u → User.username u ≠ username) →
       missing (respond (profile python_int now request username) s)).
Proof.
  intros missing. subst missing. split_and!.
  - intros id Hp. split.
    + unfold post_detail. run. rewrite Hp. eauto.
    + intros Hu. unfold edit_post, delete_post, add_comment. run.
      destruct (user request); [done |]. rewrite Hp. simpl.
      split_and!; eexists; reflexivity.
  - intros id comment_id Hc Hu. unfold edit_comment, delete_comment. run.
    destruct (user request); [done |]. rewrite Hc. simpl.
    split; eexists; reflexivity.
  - intros username Hnone. unfold profile, respond, mbind, M_bind.
    rewrite get_where_none; [eauto | exact Hnone].
Qed.

(** *** What the listings show *)

(** An instance of a filtered, annotated and ordered query, in either order
    of the last two steps, is a stored row that passes the filter and carries
    the count of its comments under the annotation's name. *)
Lemma elem_of_annotated (P : Obj Post.t → Prop) `{!∀ o, Decision (P o)}
    (name : string) (s : Store) (o : Obj Post.t) :
  o ∈ annotate_count name s (filter P (objects (posts s))) →
  posts s !! pk o = Some (row o)
  ∧ P (mkObj (pk o) (row o) [])
  ∧ annotations o = [(name, length (comments_of s (pk o)))].
Proof.
  unfold annotate_count. rewrite list_elem_of_fmap.
  intros (o0 & -> & Hin). apply list_elem_of_filter in Hin as [HP Hin].
  apply elem_of_objects in Hin as [Hl Ha].
  destruct o0 as [k r a]; simpl in *; subst a. done.
Qed.

Lemma elem_of_feed (P : Obj Post.t → Prop) `{!∀ o, Decision (P o)}
    (name : string) (s : Store) (o : Obj Post.t) :
  o ∈ order_by_pub_date_desc
        (annotate_count name s (filter P (objects (posts s))))
  ∨ o ∈ annotate_count name s
          (order_by_pub_date_desc (filter P (objects (posts s)))) →
  posts s !! pk o = Some (row o)
  ∧ P (mkObj (pk o) (row o) [])
  ∧ annotations o = [(name, length (comments_of s (pk o)))].
Proof.
  intros [Hin | Hin]; apply (elem_of_annotated P name s o).
  - by rewrite order_by_pub_date_desc_perm in Hin.
  - unfold annotate_count in *. by rewrite order_by_pub_date_desc_perm in Hin.
Qed.

Lemma page_obj_of_index (page_obj : Page (Obj Post.t)) :
  page_obj_of (Render "blog/index.html" [("page_obj", CPage page_obj)])
  = Some page_obj.
Proof. reflexivity. Qed.

Lemma page_obj_of_category (c : Obj Category.t) (page_obj : Page (Obj Post.t)) :
  page_obj_of (Render "blog/category.html"
                 [("category", CCategory c); ("page_obj", CPage page_obj)])
  = Some page_obj.
Proof. reflexivity. Qed.

Lemma page_obj_of_profile (u : Obj User.t) (page_obj : Page (Obj Post.t)) :
  page_obj_of (Render "blog/profile.html"
                 [("profile", CUser u); ("page_obj", CPage page_obj)])
  = Some page_obj.
Proof. reflexivity. Qed.

(** The pages of the three listings, with the feed each is cut from. *)
Lemma index_page (python_int : string → option Z) (s : Store) (now : Z)
    (request : Request) (page_obj : Page (Obj Post.t)) :
  page_obj_of (respond (index python_int now request) s).1 = Some page_obj →
  page_obj
  = get_page python_int
      (mkPaginator
         (order_by_pub_date_desc
            (annotate_count "comment_count" s
               (filter (index_filter s now) (objects (posts s)))))
         PAGINATOR_PAGES)
      (GET_data request !! "page").
Proof. rewrite index_run. simpl fst. rewrite page_obj_of_index. congruence. Qed.

Lemma category_page (python_int : string → option Z) (s : Store) (now : Z)
    (request : Request) (category_slug : string)
    (page_obj : Page (Obj Post.t)) :
  page_obj_of (respond (category_posts python_int now request category_slug) s).1
  = Some page_obj →
  ∃ k c,
    categories s !! k = Some c
    ∧ Category.slug c = category_slug
    ∧ Category.is_published c = true
    ∧ page_obj
      = get_page python_int
          (mkPaginator
             (annotate_count "comment_count" s
                (order_by_pub_date_desc
                   (filter (category_filter k now) (objects (posts s)))))
             PAGINATOR_PAGES)
          (GET_data request !! "page").
Proof.
  destruct (category_posts_run python_int s now request category_slug)
    as [[? ->] | [-> | (k & c & Hk & Hslug & Hpub & ->)]];
    [discriminate | discriminate |].
  simpl fst. rewrite page_obj_of_category. intros [= <-]. eauto 10.
Qed.

Lemma profile_page (python_int : string → option Z) (s : Store) (now : Z)
    (request : Request) (username : string) (page_obj : Page (Obj Post.t)) :
  page_obj_of (respond (profile python_int now request username) s).1
  = Some page_obj →
  ∃ k u,
    users s !! k = Some u
    ∧ User.username u = username
    ∧ page_obj
      = get_page python_int
          (mkPaginator
             (if is_user k (user request)
              then
                order_by_pub_date_desc
                  (annotate_count "comment_count" s
                     (filter (own_filter k) (objects (posts s))))
              else
                order_by_pub_date_desc
                  (annotate_count "comments_count" s
                     (filter (profile_filter s k now) (objects (posts s)))))
             PAGINATOR_PAGES)
          (GET_data request !! "page").
Proof.
  destruct (profile_run python_int s now request username)
    as [[? ->] | [-> | (k & u & Hk & Hname & ->)]];
    [discriminate | discriminate |].
  simpl fst. rewrite page_obj_of_profile. intros [= <-]. eauto 10.
Qed.

(** X4.  The index always renders, and the feed it paginates holds exactly
    the posts of the store that are published, in a published category and
    with a publication time not after now, each once, newest first; the page
    shown is a part of that feed, in the feed's order. *)
Theorem index_feed (python_int : string → option Z) (s : Store) (now : Z)
    (request : Request) :
  ∃ page_obj,
    respond (index python_int now request) s
    = (Render "blog/index.html" [("page_obj", CPage page_obj)], s)
    ∧ (∀ kp p,
         (kp, p) ∈ rows_of (object_list (paginator page_obj))
         ↔ posts s !! kp = Some p ∧ is_visible s now p)
    ∧ NoDup (rows_of (object_list (paginator page_obj)))
    ∧ StronglySorted newer_first (object_list (paginator page_obj))
    ∧ page_items page_obj `sublist_of` object_list (paginator page_obj).
Proof.
  eexists. split; [apply index_run |].
  rewrite paginator_get_page. simpl. split_and!.
  - intros kp p. rewrite rows_of_order_by, rows_of_annotate_count.
    rewrite elem_of_rows_of_filter. unfold index_filter, is_visible. simpl.
    tauto.
  - rewrite rows_of_order_by, rows_of_annotate_count.
    apply NoDup_rows_of_filter.
  - apply order_by_pub_date_desc_sorted.
  - apply (page_items_get_page_sublist python_int).
Qed.

(** X5.  In every listing, each post of the feed carries the number of
    comments the store holds for it: under [comment_count] in the index, in
    the category feed and in the owner's view of the profile, but under
    [comments_count] in the profile as any other viewer gets it. *)
Theorem listed_comment_counts (python_int : string → option Z) (s : Store)
    (now : Z) (request : Request) :
  (∀ page_obj o,
     page_obj_of (respond (index python_int now request) s).1 = Some page_obj →
     o ∈ object_list (paginator page_obj) →
     annotations o = [("comment_count", length (comments_of s (pk o)))])
  ∧ (∀ category_slug page_obj o,
       page_obj_of
         (respond (category_posts python_int now request category_slug) s).1
       = Some page_obj →
       o ∈ object_list (paginator page_obj) →
       annotations o = [("comment_count", length (comments_of s (pk o)))])
  ∧ (∀ username page_obj o,
       page_obj_of (respond (profile python_int now request username) s).1
       = Some page_obj →
       o ∈ object_list (paginator page_obj) →
       annotations o
       = [(if is_user (Post.author (row o)) (user request)
           then "comment_count" else "comments_count",
           length (comments_of s (pk o)))]).
Proof.
  split_and!.
  - intros page_obj o Hpage. apply index_page in Hpage as ->.
    rewrite paginator_get_page. simpl. intros Hin.
    by apply (elem_of_feed (index_filter s now) "comment_count" s o); left.
  - intros category_slug page_obj o Hpage.
    apply category_page in Hpage as (k & c & _ & _ & _ & ->).
    rewrite paginator_get_page. simpl. intros Hin.
    by apply (elem_of_feed (category_filter k now) "comment_count" s o); right.
  - intros username page_obj o Hpage.
    apply profile_page in Hpage as (k & u & _ & _ & ->).
    rewrite paginator_get_page. simpl.
    destruct (is_user k (user request)) eqn:Hu; intros Hin.
    + destruct (elem_of_feed (own_filter k) "comment_count" s o)
        as (_ & Hown & ->); [by left |].
      unfold own_filter in Hown. simpl in Hown. by rewrite Hown, Hu.
    + destruct (elem_of_feed (profile_filter s k now) "comments_count" s o)
        as (_ & Hown & ->); [by left |].
      destruct Hown as [Hown _]. simpl in Hown. by rewrite Hown, Hu.
Qed.

Lemma elem_of_page_items {A : Type} (python_int : string → option Z)
    (p : Paginator A) (number : option string) (x : A) :
  x ∈ page_items (get_page python_int p number) → x ∈ object_list p.
Proof.
  intros Hin. eapply elem_of_sublist; [exact Hin |].
  apply page_items_get_page_sublist.
Qed.

Lemma visible_opens (s : Store) (now : Z) (viewer : Request) (id : nat)
    (p : Post.t) :
  posts s !! id = Some p →
  is_visible s now p →
  respond (post_detail now viewer id) s
  = (Render "blog/detail.html"
       [("post", CPost (mkObj id p []));
        ("form", CForm (CommentForm None None));
        ("comments",
         CComments (select_related_author s (comments_of s id)))], s).
Proof.
  intros Hp Hvis.
  destruct (categories s !! Post.category p) as [c|] eqn:Hc.
  - apply (post_detail_cases s now viewer id p c Hp Hc). by left.
  - exfalso. destruct Hvis as (_ & Hcat & _).
    unfold category__is_published in Hcat. rewrite Hc in Hcat. discriminate.
Qed.

(** X6.  No listing shows a post that the detail view would hide: each post
    on a page of the index, of a category feed, or of a profile seen by
    someone other than its owner, is rendered by [post_detail] at the same
    time to every viewer, logged in or not. *)
Theorem listed_posts_open (python_int : string → option Z) (s : Store)
    (now : Z) (request viewer : Request) :
  let opens (o : Obj Post.t) :=
    respond (post_detail now viewer (pk o)) s
    = (Render "blog/detail.html"
         [("post", CPost (mkObj (pk o) (row o) []));
          ("form", CForm (CommentForm None None));
          ("comments",
           CComments (select_related_author s (comments_of s (pk o))))], s) in
  (∀ page_obj o,
     page_obj_of (respond (index python_int now request) s).1 = Some page_obj →
     o ∈ page_items page_obj → opens o)
  ∧ (∀ category_slug page_obj o,
       page_obj_of
         (respond (category_posts python_int now request category_slug) s).1
       = Some page_obj →
       o ∈ page_items page_obj → opens o)
  ∧ (∀ username page_obj o,
       page_obj_of (respond (profile python_int now request username) s).1
       = Some page_obj →
       o ∈ page_items page_obj →
       is_user (Post.author (row o)) (user request) = false →
       opens o).
Proof.
  intros opens. subst opens. split_and!.
  - intros page_obj o Hpage. apply index_page in Hpage as ->.
    intros Hin. apply elem_of_page_items in Hin. simpl in Hin.
    destruct (elem_of_feed (index_filter s now) "comment_count" s o)
      as (Hl & (Hdate & Hpub & Hcat) & _); [by left |].
    apply visible_opens; [exact Hl |]. split_and!; done.
  - intros category_slug page_obj o Hpage.
    apply category_page in Hpage as (k & c & Hk & _ & Hcpub & ->).
    intros Hin. apply elem_of_page_items in Hin. simpl in Hin.
    destruct (elem_of_feed (category_filter k now) "comment_count" s o)
      as (Hl & (Hcat & Hpub & Hdate) & _); [by right |].
    simpl in *. apply visible_opens; [exact Hl |]. split_and!; [done | | done].
    apply (category__is_published_lookup s (row o) c); [by rewrite Hcat | done].
  - intros username page_obj o Hpage.
    apply profile_page in Hpage as (k & u & _ & _ & ->).
    intros Hin Hother. apply elem_of_page_items in Hin. simpl in Hin.
    destruct (is_user k (user request)) eqn:Hu.
    + destruct (elem_of_feed (own_filter k) "comment_count" s o)
        as (_ & Hown & _); [by left |].
      unfold own_filter in Hown. simpl in Hown. congruence.
    + destruct (elem_of_feed (profile_filter s k now) "comments_count" s o)
        as (Hl & (_ & Hpub & Hcat & Hdate) & _); [by left |].
      simpl in *. apply visible_opens; [exact Hl |].
      split_and!; [done | done | lia].
Qed.

(** *** Which page is shown *)

(** X7.  A listing never fails on its [page] parameter.  The page it shows
    has a number between one and the number of pages: the first page when the
    parameter is absent or not an integer, the last page when the integer is
    below one or beyond the last page, and the page asked for otherwise; and
    it holds the ten items of the feed (fewer on the last page) that start
    ten times the number of pages before it. *)
Theorem listing_page_selection (python_int : string → option Z) (s : Store)
    (now : Z) (request : Request) (page_obj : Page (Obj Post.t)) :
  (page_obj_of (respond (index python_int now request) s).1 = Some page_obj
   ∨ (∃ category_slug,
        page_obj_of
          (respond (category_posts python_int now request category_slug) s).1
        = Some page_obj)
   ∨ (∃ username,
        page_obj_of (respond (profile python_int now request username) s).1
        = Some page_obj)) →
  per_page (paginator page_obj) = 10
  ∧ page_items page_obj
    = take 10 (drop ((number page_obj - 1) * 10)
                 (object_list (paginator page_obj)))
  ∧ 1 ≤ number page_obj ≤ num_pages (paginator page_obj)
  ∧ match GET_data request !! "page" ≫= python_int with
    | None => number page_obj = 1
    | Some n =>
        if decide (1 ≤ n ≤ Z.of_nat (num_pages (paginator page_obj)))%Z
        then number page_obj = Z.to_nat n
        else number page_obj = num_pages (paginator page_obj)
    end.
Proof.
  intros Hpage.
  assert (∃ l, page_obj
               = get_page python_int (mkPaginator l PAGINATOR_PAGES)
                   (GET_data request !! "page")) as [l ->].
  { destruct Hpage as [Hpage | [[category_slug Hpage] | [username Hpage]]].
    - apply index_page in Hpage. eauto.
    - apply category_page in Hpage as (k & c & _ & _ & _ & ->). eauto.
    - apply profile_page in Hpage as (k & u & _ & _ & ->). eauto. }
  destruct (get_page_ten python_int l (GET_data request !! "page"))
    as (Hpag & Hitems & Hnum & Hsel).
  rewrite Hpag.
  split; [reflexivity |]. split; [exact Hitems |]. split; [exact Hnum |].
  exact Hsel.
Qed.

Lemma listing_page_selection_witness :
  ∃ page_obj,
    page_obj_of
      (respond (index Sample.python_int Sample.now
                  (mkRequest GET "/" AnonymousUser (<["page" := "7"]> ∅) ∅ ∅))
         Sample.store).1 = Some page_obj
    ∧ number page_obj = 1
    ∧ page_items page_obj = take 10 (object_list (paginator page_obj)).
Proof.
  eexists. split; [reflexivity |].
  destruct (listing_page_selection Sample.python_int Sample.store Sample.now
              (mkRequest GET "/" AnonymousUser (<["page" := "7"]> ∅) ∅ ∅) _
              (or_introl eq_refl)) as (_ & Hitems & Hnum & _).
  split; [reflexivity |]. rewrite Hitems. reflexivity.
Defined.

(** *** Editing *)

Section Editing.

Variable field_clean : Store → string → string → option string → option value.
Variable model_defaults : string → gmap string value.

Lemma or_None_empty : or_None ∅ = None.
Proof. unfold or_None. by rewrite decide_True. Qed.

(** A form that was given neither data nor files is not valid. *)
Lemma full_clean_unbound (s : Store) (model : string) (names : list string)
    (i : option Instance) :
  full_clean field_clean s (mkForm model names None None i) = None.
Proof. reflexivity. Qed.

(** X8.  A logged-in request that carries no data and no files (a GET, for
    one) is shown the form and changes nothing: the empty post form by
    [create_post], the post's own form by [edit_post] for its author, and the
    comment with its form by [edit_comment] for its author. *)
Theorem empty_submission_renders_form (s : Store) (request : Request) (k : nat)
    (u : User.t) :
  user request = SessionUser k u →
  POST_data request = ∅ →
  (FILES request = ∅ →
   respond (create_post field_clean model_defaults request) s
   = (Render "blog/create.html" [("form", CForm (PostForm None None None))], s)
   ∧ ∀ id p,
       posts s !! id = Some p → Post.author p = k →
       respond (edit_post field_clean model_defaults request id) s
       = (Render "blog/create.html"
            [("form",
              CForm (PostForm None None
                       (Some (to_instance_Post (mkObj id p [])))))], s))
  ∧ ∀ id comment_id c,
      comments s !! comment_id = Some c → Comments.author c = k →
      respond (edit_comment field_clean model_defaults request id comment_id) s
      = (Render "blog/comment.html"
           [("comment", CComment (mkObj comment_id c []));
            ("form",
             CForm (CommentForm None
                      (Some (to_instance_Comments (mkObj comment_id c [])))))],
         s).
Proof.
  intros Hu Hdata. split.
  - intros Hfiles. split.
    + unfold create_post. run. rewrite Hu, Hdata, Hfiles, or_None_empty.
      reflexivity.
    + intros id p Hp Hauthor. unfold edit_post. run.
      rewrite Hu, Hp. simpl. rewrite bool_decide_eq_true_2 by exact Hauthor.
      rewrite Hdata, Hfiles, or_None_empty. reflexivity.
  - intros id comment_id c Hc Hauthor. unfold edit_comment. run.
    rewrite Hu, Hc. simpl. rewrite bool_decide_eq_true_2 by exact Hauthor.
    rewrite Hdata, or_None_empty. reflexivity.
Qed.

(** Filling an instance from a form touches only the form's fields. *)
Lemma construct_instance_other (cd : gmap string value) (names : list string)
    (i : Instance) (n : string) :
  n ∉ names → attrs (construct_instance cd names i) !! n = attrs i !! n.
Proof.
  induction names as [|m names IH]; intros Hn; simpl; [reflexivity |].
  apply not_elem_of_cons in Hn as [Hne Hn].
  destruct (cd !! m) as [[]|]; simpl; rewrite ?lookup_insert_ne by done;
    by apply IH.
Qed.

Lemma Post_to_attrs_author (p : Post.t) :
  Post_to_attrs p !! "author" = Some (VRef (Post.author p)).
Proof.
  unfold Post_to_attrs. destruct (Post.image p);
    repeat (rewrite lookup_insert_ne by done); apply lookup_insert_eq.
Qed.

Lemma as_ref_Some (v : value) (k : nat) : as_ref v = Some k → v = VRef k.
Proof. destruct v; intros [=]; by subst. Qed.

Lemma Post_of_attrs_keeps_author (a : gmap string value) (r : Post.t) (k : nat) :
  a !! "author" = Some (VRef k) → Post_of_attrs a = Some r → Post.author r = k.
Proof.
  unfold Post_of_attrs. intros Ha H. rewrite Ha in H.
  simplify_option_eq. reflexivity.
Qed.

(** X9.  [edit_post] never gives a post another author and never adds a row:
    for the author, either the form is invalid and shown again with the store
    as it was, or saving fails with the store as it was, or the row under the
    same key is replaced by one with the same author and the answer is the
    redirect to that post's detail view. *)
Theorem edit_post_by_author (s : Store) (request : Request) (id : nat)
    (p : Post.t) (k : nat) (u : User.t) :
  user request = SessionUser k u →
  posts s !! id = Some p →
  Post.author p = k →
  let form :=
    PostForm (or_None (POST_data request)) (or_None (FILES request))
      (Some (to_instance_Post (mkObj id p []))) in
  (full_clean field_clean s form = None
   ∧ respond (edit_post field_clean model_defaults request id) s
     = (Render "blog/create.html" [("form", CForm form)], s))
  ∨ respond (edit_post field_clean model_defaults request id) s
    = (ServerError "IntegrityError", s)
  ∨ ∃ r,
      respond (edit_post field_clean model_defaults request id) s
      = (Redirect (url_post_detail id), set_posts (<[id := r]>) s)
      ∧ Post.author r = k.
Proof.
  intros Hu Hp Hauthor form. unfold edit_post. run.
  rewrite Hu, Hp. simpl. rewrite bool_decide_eq_true_2 by exact Hauthor.
  simpl. destruct (full_clean field_clean s _) as [cd|] eqn:Hclean.
  2:{ left. split; reflexivity. }
  right. simpl.
  destruct (Post_of_attrs _) as [r|] eqn:Hr; [right | left; reflexivity].
  exists r. rewrite inst_pk_save_commit_false. split; [reflexivity |].
  refine (Post_of_attrs_keeps_author _ _ _ _ Hr).
  unfold save_commit_false. rewrite construct_instance_other.
  - simpl. rewrite Post_to_attrs_author. by rewrite Hauthor.
  - rewrite PostForm_fields. intros Hin. apply list_elem_of_In in Hin.
    simpl in Hin. intuition discriminate.
Qed.

End Editing.

Lemma empty_submission_renders_form_witness :
  respond (create_post Sample.field_clean Sample.model_defaults
             (Sample.request_of GET Sample.as_bob ∅)) Sample.store
  = (Render "blog/create.html" [("form", CForm (PostForm None None None))],
     Sample.store).
Proof.
  destruct (empty_submission_renders_form Sample.field_clean
              Sample.model_defaults Sample.store
              (Sample.request_of GET Sample.as_bob ∅) 2 Sample.bob
              eq_refl eq_refl) as [Hforms _].
  destruct (Hforms eq_refl) as [Hcreate _]. exact Hcreate.
Defined.

Lemma edit_post_by_author_witness :
  let request :=
    Sample.request_of POST Sample.as_alice
      (<["title" := "Rome"]> (<["text" := "Four days"]>
         (<["pub_date" := "60"]> (<["category" := "1"]> ∅)))) in
  ∃ r,
    respond (edit_post Sample.field_clean Sample.model_defaults request 1)
      Sample.store
    = (Redirect (url_post_detail 1), set_posts (<[1 := r]>) Sample.store)
    ∧ Post.author r = 1.
Proof.
  intros request.
  destruct (edit_post_by_author Sample.field_clean Sample.model_defaults
              Sample.store request 1 Sample.public_post 1 Sample.alice)
    as [[_ H] | [H | H]]; [reflexivity | reflexivity | reflexivity | | | exact H];
    apply (f_equal fst) in H; vm_compute in H; discriminate H.
Defined.

Section CommentEditing.

Variable field_clean : Store → string → string → option string → option value.
Variable model_defaults : string → gmap string value.

Lemma objects_delete {A : Type} (table : gmap nat A) (k : nat) (r : A) :
  table !! k = Some r →
  mkObj k r [] :: objects (delete k table) ≡ₚ objects table.
Proof.
  intros Hk. unfold objects. rewrite <- (map_to_list_delete table k r Hk).
  reflexivity.
Qed.

Lemma length_comments_of_delete (s : Store) (k : nat) (c : Comments.t) (id : nat) :
  comments s !! k = Some c →
  length (comments_of s id)
  = if decide (Comments.post c = id)
    then S (length (comments_of (set_comments (delete k) s) id))
    else length (comments_of (set_comments (delete k) s) id).
Proof.
  intros Hk. unfold comments_of, set_comments. simpl.
  rewrite <- (objects_delete _ _ _ Hk). rewrite filter_cons. simpl.
  case_decide; reflexivity.
Qed.

(** X10.  The author of a comment who submits text that the text field
    accepts gets the comment's text replaced in place: the row keeps its key,
    its author and its post, no other row changes, and the redirect goes to
    the detail view of the post key of the route, whatever post the comment
    belongs to. *)
Theorem edit_comment_by_author (s : Store) (request : Request)
    (id comment_id : nat) (c : Comments.t) (k : nat) (u : User.t)
    (raw t : string) :
  user request = SessionUser k u →
  comments s !! comment_id = Some c →
  Comments.author c = k →
  POST_data request !! "text" = Some raw →
  field_clean s "Comments" "text" (Some raw) = Some (VStr t) →
  respond (edit_comment field_clean model_defaults request id comment_id) s
  = (Redirect (url_post_detail id),
     set_comments
       (<[comment_id := Comments.mk t (Comments.author c) (Comments.post c)]>)
       s).
Proof.
  intros Hu Hc Hauthor Hraw Hclean. unfold edit_comment. run.
  rewrite Hu, Hc. simpl. rewrite bool_decide_eq_true_2 by exact Hauthor.
  simpl. rewrite full_clean_CommentForm, (or_None_Some _ _ _ Hraw). simpl.
  rewrite Hraw, Hclean. simpl.
  unfold save_commit_false, CommentForm. simpl.
  rewrite lookup_insert_eq. unfold Comments_of_attrs, setattr. simpl.
  unfold Comments_to_attrs.
  repeat (rewrite lookup_insert_eq || rewrite lookup_insert_ne by done); simpl.
  repeat (rewrite lookup_insert_eq || rewrite lookup_insert_ne by done); simpl.
  repeat (rewrite lookup_insert_eq || rewrite lookup_insert_ne by done); simpl.
  reflexivity.
Qed.

(** X11.  For the author of a comment, [delete_comment] on POST removes that
    comment and no other, so that its post has one comment fewer and every
    other post as many as before, and redirects to the detail view of the
    post key of the route; on GET it renders the comment for confirmation and
    on any other method it redirects, both with the store as it was. *)
Theorem delete_comment_by_author (s : Store) (request : Request)
    (id comment_id : nat) (c : Comments.t) (k : nat) (u : User.t) :
  user request = SessionUser k u →
  comments s !! comment_id = Some c →
  Comments.author c = k →
  match method request with
  | POST =>
      let s' := set_comments (delete comment_id) s in
      respond (delete_comment request id comment_id) s
      = (Redirect (url_post_detail id), s')
      ∧ length (comments_of s (Comments.post c))
        = S (length (comments_of s' (Comments.post c)))
      ∧ ∀ id', id' ≠ Comments.post c →
          length (comments_of s' id') = length (comments_of s id')
  | GET =>
      respond (delete_comment request id comment_id) s
      = (Render "blog/comment.html"
           [("comment", CComment (mkObj comment_id c []))], s)
  | OtherMethod _ =>
      respond (delete_comment request id comment_id) s
      = (Redirect (url_post_detail id), s)
  end.
Proof.
  intros Hu Hc Hauthor. unfold delete_comment. run.
  rewrite Hu, Hc. simpl. rewrite bool_decide_eq_true_2 by exact Hauthor.
  simpl. destruct (method request); simpl; [reflexivity | | reflexivity].
  split_and!; [reflexivity | |].
  - rewrite (length_comments_of_delete s comment_id c _ Hc).
    by rewrite decide_True.
  - intros id' Hne. rewrite (length_comments_of_delete s comment_id c id' Hc).
    by rewrite decide_False.
Qed.

End CommentEditing.

Lemma edit_comment_by_author_witness :
  respond (edit_comment Sample.field_clean Sample.model_defaults
             (Sample.request_of POST Sample.as_bob (<["text" := "Great"]> ∅))
             7 1) Sample.store
  = (Redirect (url_post_detail 7),
     set_comments (<[1 := Comments.mk "Great" 2 1]>) Sample.store).
Proof.
  apply (edit_comment_by_author Sample.field_clean Sample.model_defaults
           Sample.store
           (Sample.request_of POST Sample.as_bob (<["text" := "Great"]> ∅))
           7 1 (Comments.mk "Nice" 2 1) 2 Sample.bob "Great" "Great");
    reflexivity.
Defined.

Lemma delete_comment_by_author_witness :
  respond (delete_comment (Sample.request_of POST Sample.as_bob ∅) 1 1)
    Sample.store
  = (Redirect (url_post_detail 1), set_comments (delete 1) Sample.store)
  ∧ length (comments_of (set_comments (delete 1) Sample.store) 1) = 1.
Proof.
  destruct (delete_comment_by_author Sample.store
              (Sample.request_of POST Sample.as_bob ∅) 1 1
              (Comments.mk "Nice" 2 1) 2 Sample.bob)
    as (Hrun & Hcount & _); [reflexivity | reflexivity | reflexivity |].
  split; [exact Hrun |]. simpl in Hcount.
  change (length (comments_of Sample.store 1)) with 2 in Hcount. lia.
Defined.

(** *** Deleting *)

(** The store the two delete handlers leave. *)
Lemma delete_handlers_store (s : Store) (request : Request)
    (id : nat) :
  ((respond (delete_post request id) s).2 = s
   ∨ (method request = POST
      ∧ ∃ p, posts s !! id = Some p
             ∧ is_user (Post.author p) (user request) = true))
  ∧ ∀ slug,
      (respond (delete_comment request id slug) s).2 = s
      ∨ (method request = POST
         ∧ ∃ c, comments s !! slug = Some c
                ∧ is_user (Comments.author c) (user request) = true).
Proof.
  split.
  - unfold delete_post. run.
    destruct (user request) as [|k u] eqn:Hu; [by left |].
    destruct (posts s !! id) as [p|] eqn:Hp; simpl; [| by left].
    destruct (bool_decide (Post.author p = k)) eqn:Hauthor; simpl; [| by left].
    destruct (method request) eqn:Hm; simpl; [by left | | by left].
    right. split; [reflexivity |]. exists p. done.
  - intros slug. unfold delete_comment. run.
    destruct (user request) as [|k u] eqn:Hu; [by left |].
    destruct (comments s !! slug) as [c|] eqn:Hc; simpl; [| by left].
    destruct (bool_decide (Comments.author c = k)) eqn:Hauthor; simpl;
      [| by left].
    destruct (method request) eqn:Hm; simpl; [by left | | by left].
    right. split; [reflexivity |]. exists c. done.
Qed.

(** X12.  The two delete handlers remove something only for a POST request of
    the author: in every other case (another method, another user, no user,
    no such row) the store is left as it is. *)
Theorem deletes_only_on_post_by_author (s : Store) (request : Request)
    (id : nat) :
  ((respond (delete_post request id) s).2 = s
   ∨ (method request = POST
      ∧ ∃ p, posts s !! id = Some p
             ∧ is_user (Post.author p) (user request) = true))
  ∧ ∀ slug,
      (respond (delete_comment request id slug) s).2 = s
      ∨ (method request = POST
         ∧ ∃ c, comments s !! slug = Some c
                ∧ is_user (Comments.author c) (user request) = true).
Proof. exact (delete_handlers_store s request id). Qed.

(** Whatever a listing paginates is a row of the table of posts, under its
    own key and with its stored content. *)
Lemma listed_in_store (python_int : string → option Z) (s : Store) (now : Z)
    (request : Request) (page_obj : Page (Obj Post.t)) (o : Obj Post.t) :
  (page_obj_of (respond (index python_int now request) s).1 = Some page_obj
   ∨ (∃ category_slug,
        page_obj_of
          (respond (category_posts python_int now request category_slug) s).1
        = Some page_obj)
   ∨ (∃ username,
        page_obj_of (respond (profile python_int now request username) s).1
        = Some page_obj)) →
  o ∈ object_list (paginator page_obj) →
  posts s !! pk o = Some (row o).
Proof.
  intros [Hpage | [[category_slug Hpage] | [username Hpage]]].
  - apply index_page in Hpage as ->. rewrite paginator_get_page. simpl.
    intros Hin.
    by apply (elem_of_feed (index_filter s now) "comment_count" s o); left.
  - apply category_page in Hpage as (k & c & _ & _ & _ & ->).
    rewrite paginator_get_page. simpl. intros Hin.
    by apply (elem_of_feed (category_filter k now) "comment_count" s o); right.
  - apply profile_page in Hpage as (k & u & _ & _ & ->).
    rewrite paginator_get_page. simpl.
    destruct (is_user k (user request)); intros Hin.
    + by apply (elem_of_feed (own_filter k) "comment_count" s o); left.
    + by apply (elem_of_feed (profile_filter s k now) "comments_count" s o);
        left.
Qed.

(** X13.  Once its author has deleted a post by a POST request, the post is
    gone for everyone: the detail view of its key is not-found for every
    viewer, the author included, and no listing shows a post under that
    key. *)
Theorem deleted_post_is_gone (python_int : string → option Z) (s : Store)
    (request : Request) (id : nat) (p : Post.t) (k : nat) (u : User.t) :
  user request = SessionUser k u →
  posts s !! id = Some p →
  Post.author p = k →
  method request = POST →
  let s' := (respond (delete_post request id) s).2 in
  (∀ now viewer,
     ∃ message, respond (post_detail now viewer id) s' = (NotFound message, s'))
  ∧ ∀ now viewer page_obj o,
      (page_obj_of (respond (index python_int now viewer) s').1 = Some page_obj
       ∨ (∃ category_slug,
            page_obj_of
              (respond (category_posts python_int now viewer category_slug) s').1
            = Some page_obj)
       ∨ (∃ username,
            page_obj_of (respond (profile python_int now viewer username) s').1
            = Some page_obj)) →
      o ∈ object_list (paginator page_obj) →
      pk o ≠ id.
Proof.
  intros Hu Hp Hauthor Hm s'.
  assert (Hgone : posts s' !! id = None).
  { subst s'. unfold delete_post. run. rewrite Hu, Hp. simpl.
    rewrite bool_decide_eq_true_2 by exact Hauthor. rewrite Hm. simpl.
    apply lookup_delete_eq. }
  split.
  - intros now viewer. unfold post_detail. run. rewrite Hgone. eauto.
  - intros now viewer page_obj o Hpage Hin Heq.
    pose proof (listed_in_store python_int s' now viewer page_obj o Hpage Hin)
      as Hl.
    rewrite Heq, Hgone in Hl. discriminate.
Qed.

Lemma deleted_post_is_gone_witness :
  ∃ message,
    respond (post_detail Sample.now (Sample.request_of GET Sample.as_alice ∅) 1)
      (respond (delete_post (Sample.request_of POST Sample.as_alice ∅) 1)
         Sample.store).2
    = (NotFound message,
       (respond (delete_post (Sample.request_of POST Sample.as_alice ∅) 1)
          Sample.store).2).
Proof.
  apply (deleted_post_is_gone Sample.python_int Sample.store
           (Sample.request_of POST Sample.as_alice ∅) 1 Sample.public_post
           1 Sample.alice); reflexivity.
Defined.

(** *** A new comment and a new post are shown *)

(** X14.  After a logged-in user whose row is in the store has added a
    comment with accepted text, the detail view of the post, for any viewer
    it renders the post to, lists that comment with its author's row, beside
    the comments it listed before. *)
Theorem added_comment_is_shown
    (field_clean : Store → string → string → option string → option value)
    (model_defaults : string → gmap string value)
    (s : Store) (now : Z) (request viewer : Request) (id : nat) (p : Post.t)
    (c : Category.t) (k : nat) (u : User.t) (raw t : string) :
  user request = SessionUser k u →
  users s !! k = Some u →
  posts s !! id = Some p →
  categories s !! Post.category p = Some c →
  POST_data request !! "text" = Some raw →
  field_clean s "Comments" "text" (Some raw) = Some (VStr t) →
  is_visible s now p ∨ is_user (Post.author p) (user viewer) = true →
  let s' := (respond (add_comment field_clean model_defaults request id) s).2 in
  ∃ shown,
    respond (post_detail now viewer id) s'
    = (Render "blog/detail.html"
         [("post", CPost (mkObj id p []));
          ("form", CForm (CommentForm None None));
          ("comments", CComments shown)], s')
    ∧ shown
      ≡ₚ (mkObj (next_pk (comments s)) (Comments.mk t k id) [], u)
         :: select_related_author s (comments_of s id).
Proof.
  intros Hu Hrow Hp Hc Hraw Hclean Hshown s'.
  assert (Hs' : s' = set_comments
                       (<[next_pk (comments s) := Comments.mk t k id]>) s).
  { subst s'.
    by rewrite (add_comment_valid field_clean model_defaults s request id p k u
                  raw t Hu Hp Hraw Hclean). }
  rewrite Hs'. eexists. split.
  - apply (post_detail_cases _ now viewer id p c); [exact Hp | exact Hc |].
    exact Hshown.
  - unfold select_related_author, comments_of, set_comments. simpl.
    rewrite (objects_insert_fresh _ _ _ (next_pk_fresh (comments s))).
    rewrite filter_cons. simpl. rewrite decide_True by reflexivity.
    simpl. rewrite Hrow. reflexivity.
Qed.

Lemma added_comment_is_shown_witness :
  let request :=
    Sample.request_of POST Sample.as_bob (<["text" := "Again"]> ∅) in
  ∃ shown,
    respond (post_detail Sample.now request 1)
      (respond (add_comment Sample.field_clean Sample.model_defaults request 1)
         Sample.store).2
    = (Render "blog/detail.html"
         [("post", CPost (mkObj 1 Sample.public_post []));
          ("form", CForm (CommentForm None None));
          ("comments", CComments shown)],
       (respond (add_comment Sample.field_clean Sample.model_defaults request 1)
          Sample.store).2)
    ∧ length shown = 3.
Proof.
  intros request.
  destruct (added_comment_is_shown Sample.field_clean Sample.model_defaults
              Sample.store Sample.now request request 1 Sample.public_post
              Sample.travel 2 Sample.bob "Again" "Again")
    as (shown & Hrun & Hshown);
    [reflexivity | reflexivity | reflexivity | reflexivity | reflexivity
    | reflexivity | | ].
  - left. unfold is_visible. split_and!; [reflexivity | reflexivity |].
    simpl. unfold Sample.now. lia.
  - exists shown. split; [exact Hrun |]. rewrite Hshown. reflexivity.
Defined.

(** X15.  When [create_post] answers with a redirect, the redirect goes to
    the profile of the user who created the post, and following it as that
    user shows a feed that contains the new post, whatever its publication
    state and time (user names being unique and the user's row being in the
    store). *)
Theorem created_post_is_on_profile
    (python_int : string → option Z)
    (field_clean : Store → string → string → option string → option value)
    (model_defaults : string → gmap string value)
    (s s' : Store) (now : Z) (request viewer : Request) (k : nat) (u : User.t)
    (to : Url) :
  user request = SessionUser k u →
  users s !! k = Some u →
  (∀ k1 k2 u1 u2,
     users s !! k1 = Some u1 → users s !! k2 = Some u2 →
     User.username u1 = User.username u2 → k1 = k2) →
  respond (create_post field_clean model_defaults request) s
  = (Redirect to, s') →
  user viewer = user request →
  to = url_profile (User.username u)
  ∧ ∃ r page_obj,
      posts s !! next_pk (posts s) = None
      ∧ posts s' !! next_pk (posts s) = Some r
      ∧ Post.author r = k
      ∧ respond (profile python_int now viewer (User.username u)) s'
        = (Render "blog/profile.html"
             [("profile", CUser (mkObj k u []));
              ("page_obj", CPage page_obj)], s')
      ∧ (next_pk (posts s), r) ∈ rows_of (object_list (paginator page_obj)).
Proof.
  intros Hu Hrow Huniq Hrun Hviewer.
  rewrite (create_post_run field_clean model_defaults s request k u Hu) in Hrun.
  simpl in Hrun.
  destruct (full_clean _ s _) as [cd|]; [| discriminate].
  destruct (Post_of_attrs _) as [r|] eqn:Hr; [| discriminate].
  injection Hrun as <- <-. split; [reflexivity |].
  pose proof (Post_of_attrs_author _ _ _ Hr) as Hauthor.
  destruct (profile_feed python_int
              (set_posts (<[next_pk (posts s) := r]>) s) now viewer
              (User.username u) k u Huniq Hrow eq_refl)
    as (page_obj & Hprofile & Hrows & _).
  exists r, page_obj. split_and!.
  - apply next_pk_fresh.
  - simpl. apply lookup_insert_eq.
  - exact Hauthor.
  - exact Hprofile.
  - apply Hrows. split_and!.
    + simpl. apply lookup_insert_eq.
    + exact Hauthor.
    + left. rewrite Hviewer, Hu. simpl. by apply bool_decide_eq_true_2.
Qed.

Lemma sample_users (k : nat) (u : User.t) :
  users Sample.store !! k = Some u →
  (k = 1 ∧ u = Sample.alice) ∨ (k = 2 ∧ u = Sample.bob).
Proof.
  change (users Sample.store)
    with (<[1 := Sample.alice]> (<[2 := Sample.bob]> (∅ : gmap nat User.t))).
  rewrite lookup_insert. case_decide as H1.
  { intros [= <-]. left. done. }
  rewrite lookup_insert. case_decide as H2.
  { intros [= <-]. right. done. }
  rewrite lookup_empty. discriminate.
Qed.

Lemma sample_usernames_unique (k1 k2 : nat) (u1 u2 : User.t) :
  users Sample.store !! k1 = Some u1 →
  users Sample.store !! k2 = Some u2 →
  User.username u1 = User.username u2 → k1 = k2.
Proof.
  intros H1 H2 Hname.
  apply sample_users in H1 as [[-> ->] | [-> ->]];
    apply sample_users in H2 as [[-> ->] | [-> ->]];
    try reflexivity; discriminate Hname.
Qed.

Lemma created_post_is_on_profile_witness :
  let request :=
    Sample.request_of POST Sample.as_bob
      (<["title" := "Lisbon"]> (<["text" := "By train"]>
         (<["pub_date" := "900"]> (<["category" := "2"]> ∅)))) in
  ∃ page_obj,
    respond (profile Sample.python_int Sample.now request "bob")
      (respond (create_post Sample.field_clean Sample.model_defaults request)
         Sample.store).2
    = (Render "blog/profile.html"
         [("profile", CUser (mkObj 2 Sample.bob []));
          ("page_obj", CPage page_obj)],
       (respond (create_post Sample.field_clean Sample.model_defaults request)
          Sample.store).2)
    ∧ (6, Post.mk "Lisbon" "By train" 900 false None 2 2)
      ∈ rows_of (object_list (paginator page_obj)).
Proof.
  intros request.
  destruct (created_post_is_on_profile Sample.python_int Sample.field_clean
              Sample.model_defaults Sample.store
              (respond (create_post Sample.field_clean Sample.model_defaults
                          request) Sample.store).2
              Sample.now request request 2 Sample.bob (url_profile "bob"))
    as (_ & r & page_obj & _ & Hnew & _ & Hprofile & Hin);
    [reflexivity | reflexivity | exact sample_usernames_unique | reflexivity
    | reflexivity |].
  exists page_obj. split; [exact Hprofile |].
  assert (r = Post.mk "Lisbon" "By train" 900 false None 2 2) as <-.
  { change (next_pk (posts Sample.store)) with 6 in Hnew.
    assert (Hsix : posts (respond (create_post Sample.field_clean
                                     Sample.model_defaults request)
                            Sample.store).2 !! 6
                   = Some (Post.mk "Lisbon" "By train" 900 false None 2 2))
      by reflexivity.
    congruence. }
  exact Hin.
Defined.

(** *** An invariant of the store *)

Section Attached.

Variable field_clean : Store → string → string → option string → option value.
Variable model_defaults : string → gmap string value.

Lemma Comments_of_attrs_keeps (a : gmap string value) (r : Comments.t)
    (x y : nat) :
  a !! "author" = Some (VRef x) →
  a !! "post" = Some (VRef y) →
  Comments_of_attrs a = Some r →
  Comments.author r = x ∧ Comments.post r = y.
Proof.
  unfold Comments_of_attrs. intros Hx Hy H. rewrite Hx, Hy in H.
  simplify_option_eq. done.
Qed.

(** The store [create_post] and [edit_post] leave: the old one, or the old
    one with one row of posts written. *)
Lemma post_writers_store (s : Store) (request : Request) (id : nat) :
  ((respond (create_post field_clean model_defaults request) s).2 = s
   ∨ ∃ key r,
       (respond (create_post field_clean model_defaults request) s).2
       = set_posts (<[key := r]>) s)
  ∧ ((respond (edit_post field_clean model_defaults request id) s).2 = s
     ∨ ∃ key r,
         (respond (edit_post field_clean model_defaults request id) s).2
         = set_posts (<[key := r]>) s).
Proof.
  split.
  - unfold create_post. run.
    destruct (user request) as [|k u]; [by left |].
    destruct (full_clean _ s _) as [cd|]; simpl; [| by left].
    destruct (Post_of_attrs _) as [r|]; simpl; [| by left].
    right. eauto.
  - unfold edit_post. run.
    destruct (user request) as [|k u]; [by left |].
    destruct (posts s !! id) as [p|]; simpl; [| by left].
    destruct (negb _); simpl; [by left |].
    destruct (full_clean _ s _) as [cd|]; simpl; [| by left].
    destruct (Post_of_attrs _) as [r|]; simpl; [| by left].
    right. eauto.
Qed.

(** The store [add_comment] leaves: the old one, or the old one with one new
    comment on the post addressed, which exists. *)
Lemma add_comment_store (s : Store) (request : Request) (id : nat) :
  (respond (add_comment field_clean model_defaults request id) s).2 = s
  ∨ ∃ r,
      is_Some (posts s !! id)
      ∧ Comments.post r = id
      ∧ (respond (add_comment field_clean model_defaults request id) s).2
        = set_comments (<[next_pk (comments s) := r]>) s.
Proof.
  destruct (user request) as [|k u] eqn:Hu.
  { left. unfold add_comment. run. by rewrite Hu. }
  destruct (posts s !! id) as [p|] eqn:Hp.
  2:{ left. unfold add_comment. run. by rewrite Hu, Hp. }
  rewrite (add_comment_run field_clean model_defaults s request id p k u Hu Hp).
  destruct (full_clean _ s _) as [cd|]; [| by left].
  destruct (Comments_of_attrs _) as [r|] eqn:Hr; [| by left].
  right. exists r. split_and!; [eauto | | reflexivity].
  apply (Comments_of_attrs_keeps _ r k id) in Hr as [_ Hpost]; [exact Hpost | |].
  - rewrite lookup_insert_ne by done. apply lookup_insert_eq.
  - apply lookup_insert_eq.
Qed.

(** The store [edit_comment] leaves: the old one, or the old one with the
    comment rewritten under its key, with the author and the post it had. *)
Lemma edit_comment_store (s : Store) (request : Request) (id comment_id : nat) :
  (respond (edit_comment field_clean model_defaults request id comment_id) s).2
  = s
  ∨ ∃ c r,
      comments s !! comment_id = Some c
      ∧ Comments.author r = Comments.author c
      ∧ Comments.post r = Comments.post c
      ∧ (respond (edit_comment field_clean model_defaults request id
                    comment_id) s).2
        = set_comments (<[comment_id := r]>) s.
Proof.
  unfold edit_comment. run.
  destruct (user request) as [|k u]; [by left |].
  destruct (comments s !! comment_id) as [c|] eqn:Hc; simpl; [| by left].
  destruct (negb _); simpl; [by left |].
  destruct (full_clean _ s _) as [cd|]; simpl; [| by left].
  destruct (Comments_of_attrs _) as [r|] eqn:Hr; simpl; [| by left].
  right. exists c, r. rewrite inst_pk_save_commit_false. simpl.
  apply (Comments_of_attrs_keeps _ r (Comments.author c) (Comments.post c))
    in Hr as [Hauthor Hpost]; [done | |];
    unfold save_commit_false; rewrite construct_instance_other;
    try (simpl; unfold Comments_to_attrs;
         repeat (rewrite lookup_insert_ne by done); apply lookup_insert_eq);
    intros Hin; apply list_elem_of_In in Hin; simpl in Hin;
    intuition discriminate.
Qed.

(** X16.  If every comment of the store belongs to a post of the store, that
    is still so after [create_post], [edit_post], [add_comment],
    [edit_comment] and [delete_comment], for any request: these handlers
    never remove a post and never attach a comment to a post that is not
    there. *)
Theorem comments_stay_attached (s : Store) (request : Request) :
  comments_attached s →
  comments_attached
    (respond (create_post field_clean model_defaults request) s).2
  ∧ (∀ id,
       comments_attached
         (respond (edit_post field_clean model_defaults request id) s).2
       ∧ comments_attached
           (respond (add_comment field_clean model_defaults request id) s).2)
  ∧ (∀ id comment_id,
       comments_attached
         (respond (edit_comment field_clean model_defaults request id
                     comment_id) s).2
       ∧ comments_attached (respond (delete_comment request id comment_id) s).2).
Proof.
  intros Hinv.
  assert (Hposts : ∀ key r, comments_attached (set_posts (<[key := r]>) s)).
  { intros key r k c Hk. simpl in *. apply lookup_insert_is_Some'.
    right. exact (Hinv k c Hk). }
  split_and!.
  - destruct (post_writers_store s request 0) as [[-> | (key & r & ->)] _];
      [exact Hinv | apply Hposts].
  - intros id. split.
    + destruct (post_writers_store s request id) as [_ [-> | (key & r & ->)]];
        [exact Hinv | apply Hposts].
    + destruct (add_comment_store s request id) as [-> | (r & Hp & Hr & ->)];
        [exact Hinv |].
      intros k c. simpl. rewrite lookup_insert. case_decide.
      * intros [= <-]. by rewrite Hr.
      * apply Hinv.
  - intros id comment_id. split.
    + destruct (edit_comment_store s request id comment_id)
        as [-> | (c0 & r & Hc0 & _ & Hr & ->)]; [exact Hinv |].
      intros k c. simpl. rewrite lookup_insert. case_decide.
      * intros [= <-]. rewrite Hr. exact (Hinv _ _ Hc0).
      * apply Hinv.
    + destruct (delete_handlers_store s request id) as [_ Hdel].
      destruct (Hdel comment_id) as [-> | (Hm & c0 & Hc0 & Hauthor)];
        [exact Hinv |].
      unfold delete_comment. run.
      destruct (user request) as [|ku uu]; [discriminate |].
      rewrite Hc0. simpl in *. rewrite Hauthor, Hm. simpl.
      intros k c Hk. simpl in Hk. apply lookup_delete_Some in Hk as [_ Hk].
      exact (Hinv k c Hk).
Qed.

End Attached.

Lemma sample_comments_attached : comments_attached Sample.store.
Proof.
  intros k c.
  change (comments Sample.store)
    with (<[1 := Comments.mk "Nice" 2 1]>
            (<[2 := Comments.mk "Thanks" 1 1]> (∅ : gmap nat Comments.t))).
  rewrite lookup_insert. case_decide.
  { intros [= <-]. by eexists. }
  rewrite lookup_insert. case_decide.
  { intros [= <-]. by eexists. }
  rewrite lookup_empty. discriminate.
Qed.

Lemma comments_stay_attached_witness :
  comments_attached
    (respond (add_comment Sample.field_clean Sample.model_defaults
                (Sample.request_of POST Sample.as_bob (<["text" := "Hi"]> ∅)) 4)
       Sample.store).2.
Proof.
  apply (comments_stay_attached Sample.field_clean Sample.model_defaults
           Sample.store
           (Sample.request_of POST Sample.as_bob (<["text" := "Hi"]> ∅))
           sample_comments_attached).
Defined.

(** *** The profile form and the class-based comment view *)

Section ProfileAndView.

Variable field_clean : Store → string → string → option string → option value.
Variable model_defaults : string → gmap string value.
Variable validate_unique : Store → string → Instance → bool.
Variable super_dispatch : Request → nat → nat → M Response.

Lemma User_of_attrs_username (a : gmap string value) (r : User.t) :
  User_of_attrs a = Some r →
  a !! "username" ≫= as_str = Some (User.username r).
Proof.
  unfold User_of_attrs. intros H.
  destruct (a !! "username" ≫= as_str) as [n|]; [| discriminate].
  simpl in H. simplify_option_eq. reflexivity.
Qed.

(** X17.  [edit_profile] writes at most the row of the user who asks: posts,
    comments, categories and every other user's row are as before; when it
    shows the form again the whole store is as before; and when it redirects,
    the redirect goes to the profile of the user name that the row now
    holds. *)
Theorem edit_profile_writes_own_row (s : Store) (request : Request) (k : nat)
    (u : User.t) :
  user request = SessionUser k u →
  let answer :=
    respond (edit_profile field_clean model_defaults validate_unique request) s in
  posts answer.2 = posts s
  ∧ comments answer.2 = comments s
  ∧ categories answer.2 = categories s
  ∧ (∀ k', k' ≠ k → users answer.2 !! k' = users s !! k')
  ∧ (∀ template context, answer.1 = Render template context →
       template = "blog/user.html" ∧ answer.2 = s)
  ∧ (∀ to, answer.1 = Redirect to →
       ∃ r, users answer.2 !! k = Some r
            ∧ to = url_profile (User.username r)).
Proof.
  intros Hu answer. subst answer. unfold edit_profile.
  unfold respond, login_required, save_User, mbind, M_bind, mret, M_ret,
    get_store, put_store, raise.
  rewrite Hu.
  assert (Hshown : ∀ form,
            let answer := (Render "blog/user.html" [("form", CForm form)], s) in
            posts answer.2 = posts s
            ∧ comments answer.2 = comments s
            ∧ categories answer.2 = categories s
            ∧ (∀ k', k' ≠ k → users answer.2 !! k' = users s !! k')
            ∧ (∀ template context, answer.1 = Render template context →
                 template = "blog/user.html" ∧ answer.2 = s)
            ∧ (∀ to, answer.1 = Redirect to →
                 ∃ r, users answer.2 !! k = Some r
                      ∧ to = url_profile (User.username r))).
  { intros form. simpl.
    split; [reflexivity |]. split; [reflexivity |]. split; [reflexivity |].
    split; [reflexivity |]. split.
    - intros template context [= <- _]. done.
    - intros to H. discriminate H. }
  destruct (full_clean _ s _) as [cd|]; [| apply Hshown].
  destruct (validate_unique s "User" _); [| apply Hshown].
  destruct (User_of_attrs _) as [r|] eqn:Hr.
  { pose proof (User_of_attrs_username _ _ Hr) as Hname.
    unfold mbind in Hname. rewrite inst_pk_save_commit_false, Hname. simpl.
    split; [reflexivity |]. split; [reflexivity |]. split; [reflexivity |].
    split; [intros k' Hne; by apply lookup_insert_ne |]. split.
    - intros template context H. discriminate H.
    - intros to [= <-]. exists r. split; [apply lookup_insert_eq | reflexivity]. }
  split; [reflexivity |]. split; [reflexivity |]. split; [reflexivity |].
  split; [reflexivity |]. split.
  - intros template context H. discriminate H.
  - intros to H. discriminate H.
Qed.

(** X18.  [CommentUpdateView.dispatch] looks the comment up and compares its
    author with the viewer before anything else, the login check of the
    inherited view included: a missing comment is not-found, any viewer who is
    not the author, anonymous or not, is redirected to the detail view of the
    post key of the route with the store as it was, and only the author
    reaches the inherited view.  For a logged-in viewer who is not the author
    this is the answer of [edit_comment]. *)
Theorem comment_update_view_gate (s : Store) (request : Request)
    (id slug : nat) :
  match comments s !! slug with
  | None =>
      ∃ message,
        respond (CommentUpdateView_dispatch super_dispatch request id slug) s
        = (NotFound message, s)
  | Some c =>
      if is_user (Comments.author c) (user request)
      then
        respond (CommentUpdateView_dispatch super_dispatch request id slug) s
        = respond (super_dispatch request id slug) s
      else
        respond (CommentUpdateView_dispatch super_dispatch request id slug) s
        = (Redirect (CommentUpdateView_get_success_url id), s)
        ∧ (user request ≠ AnonymousUser →
           respond (edit_comment field_clean model_defaults request id slug) s
           = respond (CommentUpdateView_dispatch super_dispatch request id
                        slug) s)
  end.
Proof.
  unfold CommentUpdateView_dispatch, edit_comment. run.
  destruct (comments s !! slug) as [c|] eqn:Hc; simpl; [| eauto].
  destruct (is_user (Comments.author c) (user request)) eqn:Hauthor; simpl;
    [reflexivity |].
  split; [reflexivity |]. intros Hu.
  destruct (user request); [done |]. rewrite Hc. simpl in *.
  by rewrite Hauthor.
Qed.

End ProfileAndView.

Lemma edit_profile_writes_own_row_witness :
  let request :=
    Sample.request_of POST Sample.as_bob
      (<["username" := "robert"]> (<["text" := "x"]> ∅)) in
  let answer :=
    respond (edit_profile
               (λ _ _ _ raw, Some (from_option VStr (VStr "") raw))
               Sample.model_defaults (λ _ _ _, true) request) Sample.store in
  answer.1 = Redirect (url_profile "robert")
  ∧ users answer.2 !! 2 = Some (User.mk "robert" "" "" "")
  ∧ users answer.2 !! 1 = Some Sample.alice
  ∧ posts answer.2 = posts Sample.store.
Proof.
  intros request answer.
  destruct (edit_profile_writes_own_row
              (λ _ _ _ raw, Some (from_option VStr (VStr "") raw))
              Sample.model_defaults (λ _ _ _, true) Sample.store request
              2 Sample.bob eq_refl)
    as (Hposts & _ & _ & Hothers & _ & _).
  split_and!; [reflexivity | reflexivity | | exact Hposts].
  subst answer. rewrite Hothers by lia. reflexivity.
Defined.
